(** * mcp-gitlab: tool dispatch and HTTP session bookkeeping

    A shallow embedding of the GitLab MCP server.

    Definitions:
    - [Js]      the JavaScript values the handlers inspect: truthiness,
                [||], property reads, object spread;
    - [Json]    the text [JSON.stringify] writes and [JSON.parse] reads;
    - [Gitlab]  the repository tool handlers as computations over the
                HTTP client, and the call-tool dispatch of
                [setupRequestHandlers];
    - [Http]    the session table of [startHttp], its routes, the closures
                it hands to each transport, the JSON body parser in front
                of the routes, and the server as a transition system driven
                by requests and by the transport library;
    - [Validation] what the handlers' guards let through, and which
                arguments can be written into a request path;
    - [Uri]     [String], [encodeURIComponent] and the request paths as
                text;
    - [Startup] the environment, the GitLab client and the choice of
                transport;
    - [Traffic] runs of exchanges.

    Facts: [JsFacts], [JsonFacts], [ToolsFacts], [HttpFacts],
    [ValidationFacts], [UriFacts], [StartupFacts], [TrafficFacts].

    Numbers are integers (ids, iids, line numbers, page sizes).  A string
    is held as the bytes of its WTF-8 form: UTF-8, in which a surrogate
    that is not half of a pair is written as the three bytes ED, A0..BF,
    80..BF. *)

From Stdlib Require Import ZArith Ascii String List Lia Bool.
From Stdlib Require DecimalPos DecimalZ.
From stdpp Require Import base option gmap strings list fin_maps.

Local Open Scope string_scope.
Local Open Scope Z_scope.

(** ** JavaScript values *)

Module Js.

#[local] Unset Elimination Schemes.
Inductive Value : Type :=
| VUndefined
| VNull
| VBool (b : bool)
| VNum (n : Z)
| VStr (s : string)
| VArr (items : list Value)
| VObj (props : list (string * Value)).
#[local] Set Elimination Schemes.

Definition Props : Type := list (string * Value).

(** ToBoolean: [undefined], [null], [false], [0] and [''] are falsy. *)
Definition truthy (v : Value) : bool :=
  match v with
  | VUndefined | VNull => false
  | VBool b => b
  | VNum n => negb (n =? 0)
  | VStr s => negb (String.eqb s "")
  | VArr _ | VObj _ => true
  end.

(** [a || b] *)
Definition or (a b : Value) : Value := if truthy a then a else b.

(** Own property of an object literal or of a parsed JSON object. *)
Fixpoint lookup (k : string) (ps : Props) : Value :=
  match ps with
  | [] => VUndefined
  | (k', v) :: rest => if String.eqb k k' then v else lookup k rest
  end.

Fixpoint remove (k : string) (ps : Props) : Props :=
  match ps with
  | [] => []
  | (k', v) :: rest =>
      if String.eqb k k' then remove k rest else (k', v) :: remove k rest
  end.

(** [{...ps, k: v}]: an existing key keeps its place, a new one goes last. *)
Fixpoint assign (k : string) (v : Value) (ps : Props) : Props :=
  match ps with
  | [] => [(k, v)]
  | (k', v') :: rest =>
      if String.eqb k k' then (k, v) :: remove k rest
      else (k', v') :: assign k v rest
  end.

(** [v.k] for a key that no prototype defines: a TypeError ([None]) on
    [undefined] and [null], the own property on an object, [undefined] on
    every other value. *)
Definition field (v : Value) (k : string) : option Value :=
  match v with
  | VUndefined | VNull => None
  | VObj ps => Some (lookup k ps)
  | _ => Some VUndefined
  end.

(** [v === 'lit'] *)
Definition isStr (v : Value) (lit : string) : bool :=
  match v with
  | VStr s => String.eqb s lit
  | _ => false
  end.

(** [v === true] *)
Definition isTrue (v : Value) : bool :=
  match v with
  | VBool true => true
  | _ => false
  end.

(** *** What a plain object inherits *)

(** An object written [{}] or [{ k: v, ... }] has, besides its own
    properties, whatever [Object.prototype] defines: a read [o[k]] under
    one of these names finds a function (under [__proto__], the prototype
    object itself). *)
Definition objectPrototypeNames : list string :=
  [ "constructor"; "hasOwnProperty"; "isPrototypeOf"; "propertyIsEnumerable";
    "toLocaleString"; "toString"; "valueOf"; "__proto__";
    "__defineGetter__"; "__defineSetter__"; "__lookupGetter__";
    "__lookupSetter__" ].

Definition inherited (k : string) : bool :=
  existsb (String.eqb k) objectPrototypeNames.

(** *** Conversions that throw *)

(** [k] is an own property of the object. *)
Definition hasKey (k : string) (ps : Props) : bool :=
  existsb (fun kv => String.eqb k (fst kv)) ps.

(** [String(v)] returns, as does [v] in a template literal.  It throws a
    TypeError on an object with an own property [toString]: the value of
    the property, parsed from JSON, is not a function, and [valueOf], own
    or inherited, yields no primitive either.  An array is joined, each
    element but [null] and [undefined] converted in turn. *)
Fixpoint convertible (v : Value) : bool :=
  match v with
  | VObj props => negb (hasKey "toString" props)
  | VArr items =>
      (fix all (l : list Value) : bool :=
         match l with
         | [] => true
         | x :: rest => convertible x && all rest
         end) items
  | _ => true
  end.

(** The text holds a surrogate that is not half of a pair: the byte ED
    followed by a byte from A0 to BF. *)
Fixpoint loneSurrogate (s : string) : bool :=
  match s with
  | String a rest =>
      match rest with
      | String b _ =>
          ((N_of_ascii a =? 237) && (160 <=? N_of_ascii b) && (N_of_ascii b <=? 191))%N
          || loneSurrogate rest
      | EmptyString => false
      end
  | EmptyString => false
  end.

(** [String(v)] holds such a surrogate, on which [encodeURIComponent]
    throws a URIError: in [v] itself, or in an element of an array, which
    [String] joins with commas.  Numbers, booleans, [null], [undefined] and
    ["[object Object]"] are written in ASCII. *)
Fixpoint malformed (v : Value) : bool :=
  match v with
  | VStr s => loneSurrogate s
  | VArr items =>
      (fix any (l : list Value) : bool :=
         match l with
         | [] => false
         | x :: rest => malformed x || any rest
         end) items
  | _ => false
  end.

(** [encodeURIComponent(String(v))] returns. *)
Definition encodes (v : Value) : bool := convertible v && negb (malformed v).

End Js.

(** ** JSON text: [JSON.stringify] and [JSON.parse]

    The text [res.json] and [formatResponse] put on the wire.  Strings are
    byte strings; a number is written in decimal. *)

Module Json.

Import Js.

Definition dquote : ascii := "034"%char.
Definition backslash : ascii := "092"%char.

(** *** Writing *)

Fixpoint uintText (d : Decimal.uint) : string :=
  match d with
  | Decimal.Nil => ""
  | Decimal.D0 d => String "0" (uintText d)
  | Decimal.D1 d => String "1" (uintText d)
  | Decimal.D2 d => String "2" (uintText d)
  | Decimal.D3 d => String "3" (uintText d)
  | Decimal.D4 d => String "4" (uintText d)
  | Decimal.D5 d => String "5" (uintText d)
  | Decimal.D6 d => String "6" (uintText d)
  | Decimal.D7 d => String "7" (uintText d)
  | Decimal.D8 d => String "8" (uintText d)
  | Decimal.D9 d => String "9" (uintText d)
  end.

Definition numberText (n : Z) : string :=
  match Z.to_int n with
  | Decimal.Pos d => uintText d
  | Decimal.Neg d => String "-" (uintText d)
  end.

Definition hexDigit (n : N) : ascii :=
  match n with
  | 0%N => "0" | 1%N => "1" | 2%N => "2" | 3%N => "3" | 4%N => "4"
  | 5%N => "5" | 6%N => "6" | 7%N => "7" | 8%N => "8" | 9%N => "9"
  | 10%N => "a" | 11%N => "b" | 12%N => "c" | 13%N => "d" | 14%N => "e"
  | _ => "f"
  end%char.

(** The quote and the backslash get a backslash, the control characters
    their short escape or [\u00xx]. *)
Definition escapeChar (c : ascii) : string :=
  if Ascii.eqb c dquote then String backslash (String dquote "")
  else if Ascii.eqb c backslash then String backslash (String backslash "")
  else if Ascii.eqb c "008" then String backslash "b"
  else if Ascii.eqb c "012" then String backslash "f"
  else if Ascii.eqb c "010" then String backslash "n"
  else if Ascii.eqb c "013" then String backslash "r"
  else if Ascii.eqb c "009" then String backslash "t"
  else if (N_of_ascii c <? 32)%N then
    String backslash
      (String "u" (String "0" (String "0"
        (String (hexDigit (N_of_ascii c / 16)) (String (hexDigit (N_of_ascii c mod 16)) "")))))
  else String c "".

Fixpoint escape (s : string) : string :=
  match s with
  | EmptyString => ""
  | String c rest => escapeChar c ++ escape rest
  end.

Definition quote (s : string) : string :=
  String dquote (escape s ++ String dquote "").

(** [undefined] is written [null] inside an array and drops its member
    from an object. *)
Fixpoint render (v : Value) : string :=
  match v with
  | VUndefined | VNull => "null"
  | VBool true => "true"
  | VBool false => "false"
  | VNum n => numberText n
  | VStr s => quote s
  | VArr items =>
      String "["
        ((fix elements (l : list Value) : string :=
            match l with
            | [] => ""
            | [x] => render x
            | x :: rest => render x ++ String "," (elements rest)
            end) items ++ "]")
  | VObj props =>
      String "{"
        ((fix members (first : bool) (l : list (string * Value)) : string :=
            match l with
            | [] => ""
            | (_, VUndefined) :: rest => members first rest
            | (k, x) :: rest =>
                (if first then "" else ",") ++ quote k ++ String ":" (render x)
                  ++ members false rest
            end) true props ++ "}")
  end.

(** [JSON.stringify(v)]; [None] is [undefined]. *)
Definition stringify (v : Value) : option string :=
  match v with
  | VUndefined => None
  | _ => Some (render v)
  end.

(** *** Reading *)

Definition isWs (c : ascii) : bool :=
  Ascii.eqb c " " || Ascii.eqb c "009" || Ascii.eqb c "010" || Ascii.eqb c "013".

Fixpoint skipWs (s : string) : string :=
  match s with
  | String c rest => if isWs c then skipWs rest else s
  | EmptyString => s
  end.

Definition digitOf (c : ascii) : option (Decimal.uint -> Decimal.uint) :=
  if Ascii.eqb c "0" then Some Decimal.D0
  else if Ascii.eqb c "1" then Some Decimal.D1
  else if Ascii.eqb c "2" then Some Decimal.D2
  else if Ascii.eqb c "3" then Some Decimal.D3
  else if Ascii.eqb c "4" then Some Decimal.D4
  else if Ascii.eqb c "5" then Some Decimal.D5
  else if Ascii.eqb c "6" then Some Decimal.D6
  else if Ascii.eqb c "7" then Some Decimal.D7
  else if Ascii.eqb c "8" then Some Decimal.D8
  else if Ascii.eqb c "9" then Some Decimal.D9
  else None.

Fixpoint parseDigits (s : string) : Decimal.uint * string :=
  match s with
  | String c rest =>
      match digitOf c with
      | Some digit => let '(d, r) := parseDigits rest in (digit d, r)
      | None => (Decimal.Nil, s)
      end
  | EmptyString => (Decimal.Nil, s)
  end.

Definition parseNumber (s : string) : option (Value * string) :=
  match s with
  | String c rest =>
      if Ascii.eqb c "-" then
        match parseDigits rest with
        | (Decimal.Nil, _) => None
        | (d, r) => Some (VNum (Z.of_int (Decimal.Neg d)), r)
        end
      else
        match parseDigits s with
        | (Decimal.Nil, _) => None
        | (d, r) => Some (VNum (Z.of_int (Decimal.Pos d)), r)
        end
  | EmptyString => None
  end.

Definition hexValue (c : ascii) : option N :=
  let n := N_of_ascii c in
  if (48 <=? n)%N && (n <=? 57)%N then Some (n - 48)%N
  else if (97 <=? n)%N && (n <=? 102)%N then Some (n - 87)%N
  else if (65 <=? n)%N && (n <=? 70)%N then Some (n - 55)%N
  else None.

(** A code point below U+10000 as UTF-8 bytes. *)
Definition utf8 (n : N) : string :=
  if (n <? 128)%N then String (ascii_of_N n) ""
  else if (n <? 2048)%N then
    String (ascii_of_N (192 + n / 64)) (String (ascii_of_N (128 + n mod 64)) "")
  else
    String (ascii_of_N (224 + n / 4096))
      (String (ascii_of_N (128 + (n / 64) mod 64))
         (String (ascii_of_N (128 + n mod 64)) "")).

Definition unescape (e : ascii) : option string :=
  if Ascii.eqb e dquote then Some (String dquote "")
  else if Ascii.eqb e backslash then Some (String backslash "")
  else if Ascii.eqb e "/" then Some "/"
  else if Ascii.eqb e "b" then Some (String "008" "")
  else if Ascii.eqb e "f" then Some (String "012" "")
  else if Ascii.eqb e "n" then Some (String "010" "")
  else if Ascii.eqb e "r" then Some (String "013" "")
  else if Ascii.eqb e "t" then Some (String "009" "")
  else None.

Definition hex4 (a b c d : ascii) : option N :=
  match hexValue a, hexValue b, hexValue c, hexValue d with
  | Some x, Some y, Some z, Some w => Some (((x * 16 + y) * 16 + z) * 16 + w)%N
  | _, _, _, _ => None
  end.

(** The characters of a string literal after its opening quote, up to and
    including the closing quote. *)
Fixpoint parseChars (s : string) : option (string * string) :=
  match s with
  | EmptyString => None
  | String c rest =>
      if Ascii.eqb c dquote then Some ("", rest)
      else if Ascii.eqb c backslash then
        match rest with
        | String e rest1 =>
            if Ascii.eqb e "u" then
              match rest1 with
              | String h1 (String h2 (String h3 (String h4 rest2))) =>
                  match hex4 h1 h2 h3 h4, parseChars rest2 with
                  | Some n, Some (str, r) => Some (utf8 n ++ str, r)
                  | _, _ => None
                  end
              | _ => None
              end
            else
              match unescape e, parseChars rest1 with
              | Some u, Some (str, r) => Some (u ++ str, r)
              | _, _ => None
              end
        | EmptyString => None
        end
      else if (N_of_ascii c <? 32)%N then None
      else
        match parseChars rest with
        | Some (str, r) => Some (String c str, r)
        | None => None
        end
  end.

(** [prefix] at the head of [s], and what follows it. *)
Fixpoint expect (prefix s : string) : option string :=
  match prefix, s with
  | EmptyString, _ => Some s
  | String a p, String b r => if Ascii.eqb a b then expect p r else None
  | String _ _, EmptyString => None
  end.

Definition literal (word : string) (v : Value) (s : string) : option (Value * string) :=
  match expect word s with
  | Some r => Some (v, r)
  | None => None
  end.

Fixpoint parseValue (fuel : nat) (s : string) {struct fuel} : option (Value * string) :=
  match fuel with
  | O => None
  | S fuel' =>
      match skipWs s with
      | EmptyString => None
      | String c rest =>
          if Ascii.eqb c "n" then literal "ull" VNull rest
          else if Ascii.eqb c "t" then literal "rue" (VBool true) rest
          else if Ascii.eqb c "f" then literal "alse" (VBool false) rest
          else if Ascii.eqb c dquote then
            match parseChars rest with
            | Some (str, r) => Some (VStr str, r)
            | None => None
            end
          else if Ascii.eqb c "[" then
            match expect "]" (skipWs rest) with
            | Some r => Some (VArr [], r)
            | None =>
                match parseElements fuel' rest with
                | Some (items, r) => Some (VArr items, r)
                | None => None
                end
            end
          else if Ascii.eqb c "{" then
            match expect "}" (skipWs rest) with
            | Some r => Some (VObj [], r)
            | None =>
                match parseMembers fuel' rest with
                | Some (props, r) => Some (VObj props, r)
                | None => None
                end
            end
          else parseNumber (String c rest)
      end
  end
with parseElements (fuel : nat) (s : string) {struct fuel} : option (list Value * string) :=
  match fuel with
  | O => None
  | S fuel' =>
      match parseValue fuel' s with
      | Some (v, r) =>
          match skipWs r with
          | String c r1 =>
              if Ascii.eqb c "," then
                match parseElements fuel' r1 with
                | Some (vs, r2) => Some (v :: vs, r2)
                | None => None
                end
              else if Ascii.eqb c "]" then Some ([v], r1)
              else None
          | EmptyString => None
          end
      | None => None
      end
  end
with parseMembers (fuel : nat) (s : string) {struct fuel} : option (Props * string) :=
  match fuel with
  | O => None
  | S fuel' =>
      match expect (String dquote "") (skipWs s) with
      | Some r =>
          match parseChars r with
          | Some (k, r1) =>
              match expect ":" (skipWs r1) with
              | Some r2 =>
                  match parseValue fuel' r2 with
                  | Some (v, r3) =>
                      match skipWs r3 with
                      | String c r4 =>
                          if Ascii.eqb c "," then
                            match parseMembers fuel' r4 with
                            | Some (ms, r5) => Some ((k, v) :: ms, r5)
                            | None => None
                            end
                          else if Ascii.eqb c "}" then Some ([(k, v)], r4)
                          else None
                      | EmptyString => None
                      end
                  | None => None
                  end
              | None => None
              end
          | None => None
          end
      | None => None
      end
  end.

(** [JSON.parse(text)]; [None] is a SyntaxError. *)
Definition parse (text : string) : option Value :=
  match parseValue (S (String.length text)) text with
  | Some (v, rest) =>
      match skipWs rest with
      | EmptyString => Some v
      | String _ _ => None
      end
  | None => None
  end.

(** [v] holds no [undefined]: it is what [JSON.parse] can return. *)
Fixpoint serializable (v : Value) : bool :=
  match v with
  | VUndefined => false
  | VNull | VBool _ | VNum _ | VStr _ => true
  | VArr items => forallb serializable items
  | VObj props => forallb (fun kv => serializable (snd kv)) props
  end.

(** *** The shape of a written value *)

(** The text between the brackets of an array, and between the braces
    of an object. *)
Definition elementsText : list Value -> string :=
  fix elements (l : list Value) : string :=
    match l with
    | [] => ""
    | [x] => render x
    | x :: rest => render x ++ String "," (elements rest)
    end.

Definition membersText : bool -> Props -> string :=
  fix members (first : bool) (l : list (string * Value)) : string :=
    match l with
    | [] => ""
    | (_, VUndefined) :: rest => members first rest
    | (k, x) :: rest =>
        (if first then "" else ",") ++ quote k ++ String ":" (render x)
          ++ members false rest
    end.

(** The characters a value's text can start with. *)
Definition opens (c : ascii) : bool :=
  Ascii.eqb c "n" || Ascii.eqb c "t" || Ascii.eqb c "f" || Ascii.eqb c dquote
  || Ascii.eqb c "[" || Ascii.eqb c "{" || Ascii.eqb c "-"
  || match digitOf c with Some _ => true | None => false end.

(** A text that does not go on with a digit. *)
Definition delimited (s : string) : Prop :=
  match s with
  | EmptyString => True
  | String c _ => digitOf c = None
  end.

(** [v], written and followed by [rest], is read back as [v], leaving
    [rest], with fuel for the length of its text. *)
Definition readsBack (v : Value) : Prop :=
  forall fuel rest,
    (String.length (render v) <= fuel)%nat -> delimited rest ->
    parseValue fuel (render v ++ rest) = Some (v, rest).

End Json.

(** ** The repository tool handlers and the call-tool dispatch *)

Module Gitlab.

Import Js.

(** *** Protocol errors and other failures *)

Inductive ErrorCode : Type := InvalidRequest | InvalidParams | InternalError.

Definition codeNumber (c : ErrorCode) : Z :=
  match c with
  | InvalidRequest => -32600
  | InvalidParams => -32602
  | InternalError => -32603
  end.

(** What the HTTP client or the language itself throws. *)
Inductive Failure : Type :=
| HttpFailure (status : Z) (body : Value)   (* GitLab answered outside 2xx *)
| NetworkFailure                            (* no response received *)
| TypeError                                 (* a read on undefined or null, a call of a
                                               non-function, a value with no primitive *)
| URIError.                                 (* encodeURIComponent on a lone surrogate *)

Inductive Thrown : Type :=
| McpError (code : ErrorCode) (message : string)
| Other (f : Failure).

(** *** Requests to GitLab *)

Inductive Verb : Type := HttpGet | HttpPost | HttpPut.

(** A piece of a template literal. *)
Inductive Segment : Type :=
| Lit (s : string)
| Encoded (v : Value)   (* ${encodeURIComponent(String(v))} *)
| Raw (v : Value).      (* ${v} *)

Record Call : Type := mkCall {
  verb : Verb;
  url : list Segment;
  params : Props;   (* config.params *)
  data : Props      (* the request body *)
}.

Inductive Reply : Type :=
| Response (body : Value)   (* response.data *)
| Rejected (f : Failure).

(** The GitLab side: the reply to a call, given the calls made before it. *)
Definition Axios : Type := list Call -> Call -> Reply.

(** *** Handlers as computations over the HTTP client *)

Inductive Completion (A : Type) : Type :=
| Returned (a : A)
| Threw (t : Thrown).
Arguments Returned {A} a.
Arguments Threw {A} t.

(** A computation reads the client, appends to the log of calls made, and
    returns or throws. *)
Definition M (A : Type) : Type := Axios -> list Call -> Completion A * list Call.

Definition ret {A} (a : A) : M A := fun _ log => (Returned a, log).

Definition throw {A} (t : Thrown) : M A := fun _ log => (Threw t, log).

Definition bind {A B} (m : M A) (k : A -> M B) : M B :=
  fun axios log =>
    match m axios log with
    | (Returned a, log') => k a axios log'
    | (Threw t, log') => (Threw t, log')
    end.

Notation "x <- m ;; k" := (bind m (fun x => k))
  (at level 100, m at next level, right associativity).

(** What evaluating a piece of the template literal throws: [String(v)]
    and [${v}] a TypeError on a value with no primitive,
    [encodeURIComponent] a URIError on a lone surrogate. *)
Definition segmentThrows (seg : Segment) : option Failure :=
  match seg with
  | Lit _ => None
  | Encoded v =>
      if negb (convertible v) then Some TypeError
      else if malformed v then Some URIError
      else None
  | Raw v => if convertible v then None else Some TypeError
  end.

(** The pieces are evaluated from left to right; the first throw ends the
    evaluation. *)
Fixpoint templateThrows (segs : list Segment) : option Failure :=
  match segs with
  | [] => None
  | seg :: rest =>
      match segmentThrows seg with
      | Some f => Some f
      | None => templateThrows rest
      end
  end.

(** [await context.axiosInstance.<verb>(`...`, ...)], yielding
    [response.data]: the template literal of the path is evaluated first,
    and the client is called only if that throws nothing. *)
Definition request (c : Call) : M Value :=
  fun axios log =>
    match templateThrows (url c) with
    | Some f => (Threw (Other f), log)
    | None =>
        match axios log c with
        | Response body => (Returned body, (log ++ [c])%list)
        | Rejected f => (Threw (Other f), (log ++ [c])%list)
        end
    end.

(** [v.k], throwing the TypeError of a read on [undefined] or [null]. *)
Definition read (v : Value) (k : string) : M Value :=
  match field v k with
  | Some x => ret x
  | None => throw (Other TypeError)
  end.

(** Modelled from the spec: [formatResponse] of utils/response-formatter,
    which is not among the sources.  "Wraps an arbitrary successful
    JSON-compatible value into the protocol's required content-block shape
    (the envelope containing a single text block holding the serialized
    payload)." *)
Definition formatResponse (payload : Value) : Value :=
  VObj [ ("content",
          VArr [ VObj [ ("type", VStr "text");
                        ("text", match Json.stringify payload with
                                 | Some text => VStr text
                                 | None => VUndefined
                                 end) ] ]) ].

(** Modelled from the spec: reading the payload back out of the content
    envelope, the inverse the round-trip property of [formatResponse]
    speaks of: the text of the single block, parsed. *)
Definition extractPayload (envelope : Value) : option Value :=
  match field envelope "content" with
  | Some (VArr [block]) =>
      match field block "type", field block "text" with
      | Some (VStr "text"), Some (VStr text) => Json.parse text
      | _, _ => None
      end
  | _ => None
  end.

(** *** Call parameters *)

Record Params : Type := mkParams {
  name : string;
  arguments : option Props
}.

(** [params.arguments || {}] *)
Definition args (p : Params) : Props :=
  match arguments p with
  | Some a => a
  | None => []
  end.

Abbreviation ToolHandler := (Params -> M Value).

Definition project (project_id : Value) : list Segment :=
  [Lit "/projects/"; Encoded project_id].

Definition quoted (s : string) : string :=
  String Json.dquote (s ++ String Json.dquote "").

(** *** src/handlers/repository-handlers *)

Definition listProjects : ToolHandler := fun p =>
  let a := args p in
  let search := lookup "search" a in
  let owned := lookup "owned" a in
  let membership := lookup "membership" a in
  let per_page := lookup "per_page" a in
  body <- request {| verb := HttpGet;
                     url := [Lit "/projects"];
                     params := [ ("search", search);
                                 ("owned", if isTrue owned then VBool true else VUndefined);
                                 ("membership", if isTrue membership then VBool true else VUndefined);
                                 ("per_page", or per_page (VNum 20)) ];
                     data := [] |} ;;
  ret (formatResponse body).

Definition getProject : ToolHandler := fun p =>
  let a := args p in
  let project_id := lookup "project_id" a in
  if negb (truthy project_id) then
    throw (McpError InvalidParams "project_id is required")
  else
    body <- request {| verb := HttpGet; url := project project_id;
                       params := []; data := [] |} ;;
    ret (formatResponse body).

Definition listBranches : ToolHandler := fun p =>
  let a := args p in
  let project_id := lookup "project_id" a in
  let search := lookup "search" a in
  if negb (truthy project_id) then
    throw (McpError InvalidParams "project_id is required")
  else
    body <- request {| verb := HttpGet;
                       url := (project project_id ++ [Lit "/repository/branches"])%list;
                       params := [("search", search)]; data := [] |} ;;
    ret (formatResponse body).

Definition listMergeRequests : ToolHandler := fun p =>
  let a := args p in
  let project_id := lookup "project_id" a in
  let state := lookup "state" a in
  let scope := lookup "scope" a in
  if negb (truthy project_id) then
    throw (McpError InvalidParams "project_id is required")
  else
    body <- request {| verb := HttpGet;
                       url := (project project_id ++ [Lit "/merge_requests"])%list;
                       params := [("state", state); ("scope", scope)]; data := [] |} ;;
    ret (formatResponse body).

Definition mergeRequest (project_id merge_request_iid : Value) : list Segment :=
  (project project_id ++ [Lit "/merge_requests/"; Raw merge_request_iid])%list.

Definition getMergeRequest : ToolHandler := fun p =>
  let a := args p in
  let project_id := lookup "project_id" a in
  let merge_request_iid := lookup "merge_request_iid" a in
  if negb (truthy project_id) || negb (truthy merge_request_iid) then
    throw (McpError InvalidParams "project_id and merge_request_iid are required")
  else
    body <- request {| verb := HttpGet;
                       url := mergeRequest project_id merge_request_iid;
                       params := []; data := [] |} ;;
    ret (formatResponse body).

Definition getMergeRequestChanges : ToolHandler := fun p =>
  let a := args p in
  let project_id := lookup "project_id" a in
  let merge_request_iid := lookup "merge_request_iid" a in
  if negb (truthy project_id) || negb (truthy merge_request_iid) then
    throw (McpError InvalidParams "project_id and merge_request_iid are required")
  else
    body <- request {| verb := HttpGet;
                       url := (mergeRequest project_id merge_request_iid ++ [Lit "/changes"])%list;
                       params := []; data := [] |} ;;
    ret (formatResponse body).

Definition createMergeRequestNote : ToolHandler := fun p =>
  let a := args p in
  let project_id := lookup "project_id" a in
  let merge_request_iid := lookup "merge_request_iid" a in
  let body := lookup "body" a in
  if negb (truthy project_id) || negb (truthy merge_request_iid) || negb (truthy body) then
    throw (McpError InvalidParams "project_id, merge_request_iid, and body are required")
  else
    reply <- request {| verb := HttpPost;
                        url := (mergeRequest project_id merge_request_iid ++ [Lit "/notes"])%list;
                        params := []; data := [("body", body)] |} ;;
    ret (formatResponse reply).

Definition listIssues : ToolHandler := fun p =>
  let a := args p in
  let project_id := lookup "project_id" a in
  let state := lookup "state" a in
  let labels := lookup "labels" a in
  if negb (truthy project_id) then
    throw (McpError InvalidParams "project_id is required")
  else
    body <- request {| verb := HttpGet;
                       url := (project project_id ++ [Lit "/issues"])%list;
                       params := [("state", state); ("labels", labels)]; data := [] |} ;;
    ret (formatResponse body).

Definition getRepositoryFile : ToolHandler := fun p =>
  let a := args p in
  let project_id := lookup "project_id" a in
  let file_path := lookup "file_path" a in
  let ref := lookup "ref" a in
  if negb (truthy project_id) || negb (truthy file_path) then
    throw (McpError InvalidParams "project_id and file_path are required")
  else
    body <- request {| verb := HttpGet;
                       url := (project project_id ++ [Lit "/repository/files/"; Encoded file_path])%list;
                       params := [("ref", or ref (VStr "main"))]; data := [] |} ;;
    ret (formatResponse body).

Definition compareBranches : ToolHandler := fun p =>
  let a := args p in
  let project_id := lookup "project_id" a in
  let from := lookup "from" a in
  let to := lookup "to" a in
  if negb (truthy project_id) || negb (truthy from) || negb (truthy to) then
    throw (McpError InvalidParams "project_id, from, and to are required")
  else
    body <- request {| verb := HttpGet;
                       url := (project project_id ++ [Lit "/repository/compare"])%list;
                       params := [("from", from); ("to", to)]; data := [] |} ;;
    ret (formatResponse body).

Definition updateMergeRequest : ToolHandler := fun p =>
  let a := args p in
  let project_id := lookup "project_id" a in
  let merge_request_iid := lookup "merge_request_iid" a in
  let title := lookup "title" a in
  let description := lookup "description" a in
  if negb (truthy project_id) || negb (truthy merge_request_iid) then
    throw (McpError InvalidParams "project_id and merge_request_iid are required")
  else if negb (truthy title) && negb (truthy description) then
    throw (McpError InvalidParams "At least one of title or description is required")
  else
    body <- request {| verb := HttpPut;
                       url := mergeRequest project_id merge_request_iid;
                       params := [];
                       data := [("title", title); ("description", description)] |} ;;
    ret (formatResponse body).

Definition createMergeRequestNoteInternal : ToolHandler := fun p =>
  let a := args p in
  let project_id := lookup "project_id" a in
  let merge_request_iid := lookup "merge_request_iid" a in
  let body := lookup "body" a in
  let internal := lookup "internal" a in
  if negb (truthy project_id) || negb (truthy merge_request_iid) || negb (truthy body) then
    throw (McpError InvalidParams "project_id, merge_request_iid, and body are required")
  else
    reply <- request {| verb := HttpPost;
                        url := (mergeRequest project_id merge_request_iid ++ [Lit "/notes"])%list;
                        params := [];
                        data := [("body", body); ("internal", VBool (isTrue internal))] |} ;;
    ret (formatResponse reply).

(** [{...v}]: the own enumerable properties of [v]; the elements of an
    array and the characters of a string under their indices. *)
Definition indexKey (i : nat) : string := Json.uintText (Nat.to_uint i).

Fixpoint indexed {A} (f : A -> Value) (i : nat) (l : list A) : Props :=
  match l with
  | [] => []
  | x :: rest => (indexKey i, f x) :: indexed f (S i) rest
  end.

Definition spread (v : Value) : Props :=
  match v with
  | VObj ps => ps
  | VArr items => indexed (fun x => x) 0 items
  | VStr s => indexed (fun c => VStr (String c "")) 0 (list_ascii_of_string s)
  | _ => []
  end.

Definition createMergeRequestDiscussion : ToolHandler := fun p =>
  let a := args p in
  let project_id := lookup "project_id" a in
  let merge_request_iid := lookup "merge_request_iid" a in
  let body := lookup "body" a in
  let position := lookup "position" a in
  if negb (truthy project_id) || negb (truthy merge_request_iid)
     || negb (truthy body) || negb (truthy position) then
    throw (McpError InvalidParams "project_id, merge_request_iid, body, and position are required")
  else
    base_sha <- read position "base_sha" ;;
    start_sha <- read position "start_sha" ;;
    head_sha <- read position "head_sha" ;;
    new_path <- read position "new_path" ;;
    old_path <- read position "old_path" ;;
    if negb (truthy base_sha) || negb (truthy start_sha) || negb (truthy head_sha)
       || negb (truthy new_path) || negb (truthy old_path) then
      throw (McpError InvalidParams
               "position must include base_sha, start_sha, head_sha, new_path, and old_path")
    else
      reply <- request {| verb := HttpPost;
                          url := (mergeRequest project_id merge_request_iid ++ [Lit "/discussions"])%list;
                          params := [];
                          data := [ ("body", body);
                                    ("position",
                                     VObj (assign "position_type" (VStr "text") (spread position))) ] |} ;;
      ret (formatResponse reply).

Definition createMergeRequestDiscussionSimple : ToolHandler := fun p =>
  let a := args p in
  let project_id := lookup "project_id" a in
  let merge_request_iid := lookup "merge_request_iid" a in
  let body := lookup "body" a in
  let file_path := lookup "file_path" a in
  let line_number := lookup "line_number" a in
  let line_type := lookup "line_type" a in
  if negb (truthy project_id) || negb (truthy merge_request_iid) || negb (truthy body)
     || negb (truthy file_path) || negb (truthy line_number) || negb (truthy line_type) then
    throw (McpError InvalidParams
             "project_id, merge_request_iid, body, file_path, line_number, and line_type are required")
  else if negb (isStr line_type "new") && negb (isStr line_type "old") then
    throw (McpError InvalidParams
             ("line_type must be either " ++ quoted "new" ++ " or " ++ quoted "old"))
  else
    mr <- request {| verb := HttpGet;
                     url := mergeRequest project_id merge_request_iid;
                     params := []; data := [] |} ;;
    diffRefs <- read mr "diff_refs" ;;
    if negb (truthy diffRefs) then
      throw (McpError InternalError
               "Could not retrieve diff_refs from merge request. The MR may not have any commits yet.")
    else
      base_sha <- read diffRefs "base_sha" ;;
      start_sha <- read diffRefs "start_sha" ;;
      head_sha <- read diffRefs "head_sha" ;;
      let position :=
        VObj [ ("base_sha", base_sha);
               ("start_sha", start_sha);
               ("head_sha", head_sha);
               ("position_type", VStr "text");
               ("new_path", file_path);
               ("old_path", file_path);
               ("new_line", if isStr line_type "new" then line_number else VNull);
               ("old_line", if isStr line_type "old" then line_number else VNull) ] in
      reply <- request {| verb := HttpPost;
                          url := (mergeRequest project_id merge_request_iid ++ [Lit "/discussions"])%list;
                          params := [];
                          data := [("body", body); ("position", position)] |} ;;
      ret (formatResponse reply).

(** *** The handlers of this module, by name *)

Inductive Tool : Type :=
| ListProjects | GetProject | ListBranches | ListMergeRequests
| GetMergeRequest | GetMergeRequestChanges | CreateMergeRequestNote
| ListIssues | GetRepositoryFile | CompareBranches | UpdateMergeRequest
| CreateMergeRequestNoteInternal | CreateMergeRequestDiscussion
| CreateMergeRequestDiscussionSimple.

Definition handlerOf (t : Tool) : ToolHandler :=
  match t with
  | ListProjects => listProjects
  | GetProject => getProject
  | ListBranches => listBranches
  | ListMergeRequests => listMergeRequests
  | GetMergeRequest => getMergeRequest
  | GetMergeRequestChanges => getMergeRequestChanges
  | CreateMergeRequestNote => createMergeRequestNote
  | ListIssues => listIssues
  | GetRepositoryFile => getRepositoryFile
  | CompareBranches => compareBranches
  | UpdateMergeRequest => updateMergeRequest
  | CreateMergeRequestNoteInternal => createMergeRequestNoteInternal
  | CreateMergeRequestDiscussion => createMergeRequestDiscussion
  | CreateMergeRequestDiscussionSimple => createMergeRequestDiscussionSimple
  end.

(** Modelled from the spec: the tool catalogue (utils/tools-data), whose
    input schemas declare the required arguments, is not among the sources.
    "A tool handler detects a missing/malformed required argument": the
    required arguments of a tool are those its handler's first guard lists
    as required. *)
Definition required (t : Tool) : list string :=
  match t with
  | ListProjects => []
  | GetProject | ListBranches | ListMergeRequests | ListIssues => ["project_id"]
  | GetMergeRequest | GetMergeRequestChanges | UpdateMergeRequest =>
      ["project_id"; "merge_request_iid"]
  | CreateMergeRequestNote | CreateMergeRequestNoteInternal =>
      ["project_id"; "merge_request_iid"; "body"]
  | GetRepositoryFile => ["project_id"; "file_path"]
  | CompareBranches => ["project_id"; "from"; "to"]
  | CreateMergeRequestDiscussion => ["project_id"; "merge_request_iid"; "body"; "position"]
  | CreateMergeRequestDiscussionSimple =>
      ["project_id"; "merge_request_iid"; "body"; "file_path"; "line_number"; "line_type"]
  end.

(** [needle] occurs in [text]. *)
Fixpoint mentions (needle text : string) : bool :=
  String.prefix needle text
  || match text with
     | EmptyString => false
     | String _ rest => mentions needle rest
     end.

(** *** The call-tool request handler of [setupRequestHandlers] *)

(** [request.params] as a value. *)
Definition paramsValue (p : Params) : Value :=
  VObj (("name", VStr (name p))
        :: match arguments p with
           | Some a => [("arguments", VObj a)]
           | None => []
           end).

(** [handler(request.params, this.handlerContext)] when [handler] is what
    a plain object inherits under [k]: the call has no receiver.  [Object]
    (under [constructor]) returns its argument; [Object.prototype.toString]
    names the missing receiver; every other member throws a TypeError
    converting the receiver; the object under [__proto__] is not a
    function. *)
Definition prototypeCall (k : string) (p : Params) : M Value :=
  if String.eqb k "constructor" then ret (paramsValue p)
  else if String.eqb k "toString" then ret (VStr "[object Undefined]")
  else throw (Other TypeError).

Section Dispatch.

(** utils/tool-registry and [handleApiError] of utils/response-formatter
    are not among the sources.  The registry is taken as an object literal
    that maps names to handlers: the finite map holds its own properties,
    and a read [toolRegistry[name]] under any other name finds what
    [Object.prototype] defines there, or [undefined].  The formatter is any
    function of the failure and the context message. *)
Variable toolRegistry : gmap string ToolHandler.
Variable handleApiError : Thrown -> string -> Thrown.

(** The [try] block. *)
Definition dispatch (request : Params) : M Value :=
  match toolRegistry !! name request with
  | Some handler => handler request
  | None =>
      if inherited (name request) then prototypeCall (name request) request
      else throw (McpError InvalidRequest ("Unknown tool: " ++ name request))
  end.

(** The [catch] block. *)
Definition rethrow (error : Thrown) : Thrown :=
  match error with
  | McpError _ _ => error
  | Other _ => handleApiError error "Error executing GitLab operation"
  end.

Definition callTool (request : Params) : M Value :=
  fun axios log =>
    match dispatch request axios log with
    | (Returned result, log') => (Returned result, log')
    | (Threw error, log') => (Threw (rethrow error), log')
    end.

End Dispatch.

(** *** Calls and clients of the scenarios *)

(** [p] with the argument [k] taken out. *)
Definition without (k : string) (p : Params) : Params :=
  {| name := name p; arguments := Some (remove k (args p)) |}.

(** A GitLab that cannot be reached, and one that answers 404. *)
Definition noAxios : Axios := fun _ _ => Rejected NetworkFailure.

Definition notFound : Axios :=
  fun _ _ => Rejected (HttpFailure 404 (VObj [("message", VStr "404 Project Not Found")])).

(** Two error formatters: one returns the failure as it is, one wraps it
    in an internal protocol error carrying the context message. *)
Definition keepError (e : Thrown) (_ : string) : Thrown := e.

Definition wrapError (e : Thrown) (context : string) : Thrown :=
  match e with
  | McpError _ _ => e
  | Other _ => McpError InternalError context
  end.

(** create_merge_request_discussion_simple on line 0. *)
Definition lineZero : Params :=
  {| name := "create_merge_request_discussion_simple";
     arguments := Some [ ("project_id", VStr "group/app");
                         ("merge_request_iid", VNum 12);
                         ("body", VStr "nit");
                         ("file_path", VStr "src/index.ts");
                         ("line_number", VNum 0);
                         ("line_type", VStr "new") ] |}.

(** The text of the one UTF-16 unit D800, a surrogate without its pair. *)
Definition unpaired : string := String "237" (String "160" (String "128" "")).

(** get_repository_file on a project whose id ends in that unit, and on
    one whose id is the object [{"toString": null}]. *)
Definition unpairedProject : Params :=
  {| name := "get_repository_file";
     arguments := Some [ ("project_id", VStr ("group/app" ++ unpaired));
                         ("file_path", VStr "README.md") ] |}.

Definition unprintableProject : Params :=
  {| name := "get_repository_file";
     arguments := Some [ ("project_id", VObj [("toString", VNull)]);
                         ("file_path", VStr "README.md") ] |}.

(** A project as GitLab describes it. *)
Definition sampleProject : Value :=
  VObj [ ("id", VNum 42);
         ("path", VStr "group/app");
         ("archived", VBool false);
         ("topics", VArr [VStr "mcp"; VNull; VArr []]);
         ("owner", VObj [("name", VStr (String Json.dquote "kishan\")); ("id", VNum (-1))]) ].

End Gitlab.

(** ** The HTTP transport: [startHttp] *)

Module Http.

Import Js.

(** A [StreamableHTTPServerTransport] object, known by its identity. *)
Abbreviation TransportRef := nat.

(** What [startHttp] can observe and change: the session table
    [transports] (its own properties), the [sessionId] field of each
    transport object, the number of transport objects constructed so far,
    and the requests sent to GitLab so far. *)
Record State : Type := mkState {
  transports : gmap string TransportRef;
  sessionIdOf : gmap TransportRef string;
  constructed : nat;
  gitlab : list Gitlab.Call
}.

Definition initial : State :=
  {| transports := ∅; sessionIdOf := ∅; constructed := 0%nat; gitlab := [] |}.

Definition withTransports (f : gmap string TransportRef -> gmap string TransportRef)
    (st : State) : State :=
  {| transports := f (transports st);
     sessionIdOf := sessionIdOf st;
     constructed := constructed st;
     gitlab := gitlab st |}.

(** [transports] is created as [{}]: besides its own properties, a read
    [transports[k]] finds whatever [Object.prototype] defines under [k]
    ([Js.inherited]). *)
Inductive Slot : Type :=
| Own (t : TransportRef)   (* a registered transport *)
| Inherited                (* a function or object of Object.prototype: truthy, no handleRequest *)
| Missing.                 (* undefined *)

(** [transports[k]] *)
Definition getProp (tbl : gmap string TransportRef) (k : string) : Slot :=
  match tbl !! k with
  | Some t => Own t
  | None => if inherited k then Inherited else Missing
  end.

Inductive Method : Type := POST | GET | DELETE.

(** What the transport library does while this request is handled:
    whether [server.connect] and [transport.handleRequest] throw. *)
Record Sdk : Type := mkSdk { connectThrows : bool; handleThrows : bool }.

Inductive Outcome : Type :=
| Json (status : Z) (body : Value)       (* res.status(status).json(body) *)
| Send (status : Z) (text : string)      (* res.status(status).send(text) *)
| Handled (t : TransportRef).            (* transport.handleRequest answered *)

Definition invalidSession : Value :=
  VObj [ ("jsonrpc", VStr "2.0");
         ("error", VObj [ ("code", VNum (-32000)); ("message", VStr "Invalid session") ]);
         ("id", VNull) ].

Definition internalError : Value :=
  VObj [ ("jsonrpc", VStr "2.0");
         ("error", VObj [ ("code", VNum (-32603)); ("message", VStr "Internal server error") ]);
         ("id", VNull) ].

(** The text [res.json(invalidSession)] writes. *)
Definition invalidSessionText : string :=
  "{" ++ Gitlab.quoted "jsonrpc" ++ ":" ++ Gitlab.quoted "2.0" ++ ","
      ++ Gitlab.quoted "error" ++ ":{" ++ Gitlab.quoted "code" ++ ":-32000,"
      ++ Gitlab.quoted "message" ++ ":" ++ Gitlab.quoted "Invalid session" ++ "},"
      ++ Gitlab.quoted "id" ++ ":null}".

(** The [catch] block of each route. *)
Definition caught (m : Method) : Outcome :=
  match m with
  | POST => Json 500 internalError
  | GET | DELETE => Send 500 "Internal server error"
  end.

(** [await transport.handleRequest(req, res, ...)] on the value read from
    the table, inside the route's [try]: how the request is answered.
    What the transport does to the table while it handles the request is
    [during], below. *)
Definition handleRequest (m : Method) (slot : Slot) (sdk : Sdk) : Outcome :=
  match slot with
  | Own t => if handleThrows sdk then caught m else Handled t
  | Inherited => caught m
  | Missing => caught m
  end.

(** [app.post('/mcp', ...)]: the route's own code, with the state at the
    hand-over to [transport.handleRequest]. *)
Definition post (sessionId : option string) (sdk : Sdk) (st : State) : Outcome * State :=
  let present :=
    match sessionId with
    | Some s => negb (String.eqb s "")
    | None => false
    end in
  let slot :=
    match sessionId with
    | Some s => getProp (transports st) s
    | None => Missing
    end in
  if present && match slot with Missing => false | _ => true end then
    (handleRequest POST slot sdk, st)
  else if negb present then
    let t := constructed st in
    let st' := {| transports := transports st;
                  sessionIdOf := sessionIdOf st;
                  constructed := S (constructed st);
                  gitlab := gitlab st |} in
    if connectThrows sdk then (caught POST, st')
    else (handleRequest POST (Own t) sdk, st')
  else (Json 400 invalidSession, st).

(** The key of [transports[sessionId]] when the header is read without a
    guard: a missing header is [undefined], which reads the key
    ['undefined']. *)
Definition keyOf (sessionId : option string) : string :=
  match sessionId with
  | Some s => s
  | None => "undefined"
  end.

(** [app.get('/mcp', ...)] and [app.delete('/mcp', ...)] *)
Definition getOrDelete (m : Method) (sessionId : option string) (sdk : Sdk)
    (st : State) : Outcome * State :=
  match getProp (transports st) (keyOf sessionId) with
  | Missing => (Json 400 invalidSession, st)
  | slot => (handleRequest m slot sdk, st)
  end.

Definition mcp (m : Method) (sessionId : option string) (sdk : Sdk)
    (st : State) : Outcome * State :=
  match m with
  | POST => post sessionId sdk st
  | GET => getOrDelete GET sessionId sdk st
  | DELETE => getOrDelete DELETE sessionId sdk st
  end.

(** [app.get('/health', ...)]: [res.json] answers with status 200. *)
Definition health (st : State) : Outcome * State :=
  (Json 200 (VObj [ ("status", VStr "ok");
                    ("transport", VStr "streamable-http");
                    ("activeSessions", VNum (Z.of_nat (size (transports st)))) ]),
   st).

(** *** The closures handed to each new transport *)

(** [s.substring(n)] *)
Fixpoint substringFrom (n : nat) (s : string) : string :=
  match n, s with
  | O, _ => s
  | S n', String _ rest => substringFrom n' rest
  | S _, EmptyString => EmptyString
  end.

(** [sessionIdGenerator], given the text of [Math.random().toString(36)]. *)
Definition sessionIdGenerator (random36 : string) : string :=
  substringFrom 7 random36.

(** [onsessioninitialized(id)] of transport [t]: [transports[id] = transport]. *)
Definition onsessioninitialized (t : TransportRef) (id : string) (st : State) : State :=
  withTransports (fun tbl => <[id := t]> tbl) st.

(** [onsessionclosed(id)]: [delete transports[id]]. *)
Definition onsessionclosed (id : string) (st : State) : State :=
  withTransports (fun tbl => delete id tbl) st.

(** [transport.onclose] of transport [t]. *)
Definition onclose (t : TransportRef) (st : State) : State :=
  match sessionIdOf st !! t with
  | Some id =>
      if negb (String.eqb id "") then withTransports (fun tbl => delete id tbl) st
      else st
  | None => st
  end.

(** *** The server as a transition system

    The routes above run on requests; the closures run when the transport
    library calls them.  A transport draws its identifier from
    [sessionIdGenerator] once, when it accepts an initialize request, stores
    it in its [sessionId] field and, if it is truthy, reports it through
    [onsessioninitialized]; on a DELETE it reports [onsessionclosed] with
    its identifier; whenever it closes it calls [onclose]. *)

Definition isBase36 (c : ascii) : bool :=
  let n := N_of_ascii c in
  ((48 <=? n) && (n <=? 57) || (97 <=? n) && (n <=? 122))%N.

Fixpoint allBase36 (s : string) : bool :=
  match s with
  | EmptyString => true
  | String c rest => isBase36 c && allBase36 rest
  end.

(** The texts [Math.random().toString(36)] can be: ["0"], or ["0."] and
    base-36 digits. *)
Definition isRandom36 (s : string) : bool :=
  match s with
  | String "0" EmptyString => true
  | String "0" (String "." (String c rest)) => allBase36 (String c rest)
  | _ => false
  end.

(** The transport [t] accepts an initialize request and draws [id]. *)
Definition initialize (t : TransportRef) (id : string) (st : State) : State :=
  let st' := {| transports := transports st;
                sessionIdOf := <[t := id]> (sessionIdOf st);
                constructed := constructed st;
                gitlab := gitlab st |} in
  if negb (String.eqb id "") then onsessioninitialized t id st' else st'.

Section Transitions.

Variable toolRegistry : gmap string Gitlab.ToolHandler.
Variable handleApiError : Gitlab.Thrown -> string -> Gitlab.Thrown.

Inductive Event : Type :=
| Request (m : Method) (sessionId : option string) (sdk : Sdk)
| Health
| Initialized (t : TransportRef) (random36 : string)
| SessionClosed (t : TransportRef)
| Closed (t : TransportRef)
| ToolCall (request : Gitlab.Params) (axios : Gitlab.Axios).

Definition fire (e : Event) (st : State) : option State :=
  match e with
  | Request m sessionId sdk => Some (snd (mcp m sessionId sdk st))
  | Health => Some (snd (health st))
  | Initialized t random36 =>
      if bool_decide (t < constructed st)%nat && isRandom36 random36 then
        match sessionIdOf st !! t with
        | Some _ => None
        | None => Some (initialize t (sessionIdGenerator random36) st)
        end
      else None
  | SessionClosed t =>
      match sessionIdOf st !! t with
      | Some id => Some (onsessionclosed id st)
      | None => None
      end
  | Closed t =>
      if bool_decide (t < constructed st)%nat then Some (onclose t st) else None
  | ToolCall request axios =>
      Some {| transports := transports st;
              sessionIdOf := sessionIdOf st;
              constructed := constructed st;
              gitlab := snd (Gitlab.callTool toolRegistry handleApiError request axios (gitlab st)) |}
  end.

Inductive reachable : State -> Prop :=
| reachable_initial : reachable initial
| reachable_fire st e st' : reachable st -> fire e st = Some st' -> reachable st'.

(** Events fired one after the other. *)
Fixpoint run (events : list Event) (st : State) : option State :=
  match events with
  | [] => Some st
  | e :: rest =>
      match fire e st with
      | Some st1 => run rest st1
      | None => None
      end
  end.

End Transitions.

(** *** A whole exchange: body parser, route, transport *)

(** [app.use(express.json())] runs before every route.  A body it cannot
    take (malformed JSON, too large, an unsupported charset or encoding)
    it refuses: express's error handler answers with the status of the
    refusal and an HTML page, and no route runs. *)
Inductive BodyParser : Type :=
| Next                    (* next(): on to the route *)
| Refuse (status : Z).    (* next(err): 400, 413, 415 *)

(** What a transport does to the table while it handles a request: it
    accepts an initialize request and draws its identifier from the text
    of [Math.random().toString(36)]; on a DELETE it reports the session
    closed; it closes. *)
Inductive Callback : Type :=
| Initialize (random36 : string)
| SessionClose
| Close.

(** A transport draws an identifier once, and [Math.random().toString(36)]
    writes nothing but the texts [isRandom36] admits. *)
Definition callback (t : TransportRef) (c : Callback) (st : State) : State :=
  match c with
  | Initialize random36 =>
      if isRandom36 random36 then
        match sessionIdOf st !! t with
        | Some _ => st
        | None => initialize t (sessionIdGenerator random36) st
        end
      else st
  | SessionClose =>
      match sessionIdOf st !! t with
      | Some id => onsessionclosed id st
      | None => st
      end
  | Close => onclose t st
  end.

Definition during (t : TransportRef) (callbacks : list Callback) (st : State) : State :=
  fold_left (fun s c => callback t c s) callbacks st.

(** The transport whose [handleRequest] the route awaits, if it gets that
    far: the one registered under the identifier, or on POST the one just
    constructed and connected. *)
Definition awaited (m : Method) (sessionId : option string) (sdk : Sdk)
    (st : State) : option TransportRef :=
  match m with
  | POST =>
      match sessionId with
      | Some s =>
          if negb (String.eqb s "") then
            match getProp (transports st) s with
            | Own t => Some t
            | _ => None
            end
          else if connectThrows sdk then None
          else Some (constructed st)
      | None => if connectThrows sdk then None else Some (constructed st)
      end
  | GET | DELETE =>
      match getProp (transports st) (keyOf sessionId) with
      | Own t => Some t
      | _ => None
      end
  end.

Inductive Answer : Type :=
| ByParser (status : Z)    (* the error page of the refused body *)
| ByRoute (out : Outcome).

(** One request from arrival to answer: the body parser, then the route,
    then whatever the awaited transport does before [handleRequest]
    returns or throws. *)
Definition exchange (parser : BodyParser) (m : Method) (sessionId : option string)
    (sdk : Sdk) (callbacks : list Callback) (st : State) : Answer * State :=
  match parser with
  | Refuse status => (ByParser status, st)
  | Next =>
      let '(out, st1) := mcp m sessionId sdk st in
      match awaited m sessionId sdk st with
      | Some t => (ByRoute out, during t callbacks st1)
      | None => (ByRoute out, st1)
      end
  end.


(** A request during which the transport library throws nothing. *)
Definition quiet : Sdk := {| connectThrows := false; handleThrows := false |}.

(** A POST without a session header, answered without failure, whose
    transport then completes the handshake under the identifier [id]. *)
Definition openSession (id : string) (st : State) : State :=
  initialize (constructed st) id (snd (post None quiet st)).

Definition openAll (ids : list string) (st : State) : State :=
  fold_left (fun s id => openSession id s) ids st.


(** *** Consistency of a state, and the states of the scenarios *)

(** Every entry of the table carries the identifier its transport holds,
    which is not empty; every transport holding an identifier has been
    constructed, and its identifier is made of base-36 digits. *)
Definition consistent (st : State) : Prop :=
  (forall k t, transports st !! k = Some t -> sessionIdOf st !! t = Some k /\ k <> "")
  /\ (forall t id, sessionIdOf st !! t = Some id ->
        (t < constructed st)%nat /\ allBase36 id = true).

(** An empty registry and a formatter that returns the failure as it is. *)
Definition noTools : gmap string Gitlab.ToolHandler := ∅.
Definition identityFormatter (e : Gitlab.Thrown) (_ : string) : Gitlab.Thrown := e.

(** One session, live under the identifier [0be29]. *)
Definition oneSession : State :=
  initialize 0 (sessionIdGenerator "0.o16a90be29") (snd (post None quiet initial)).

(** Two sessions opened one after the other, the second drawing the
    identifier of the first. *)
Definition twoColliding : State :=
  openAll [sessionIdGenerator "0.o16a90be29"; sessionIdGenerator "0.o2fui0be29"] initial.

(** The one session closed by a DELETE, during which its transport
    reports the session closed and closes. *)
Definition afterDelete : State :=
  snd (exchange Next DELETE (Some "0be29") quiet [SessionClose; Close] oneSession).

(** Then a POST without a session header, whose transport draws the
    identifier of the closed session. *)
Definition redrawn : State :=
  snd (exchange Next POST None quiet [Initialize "0.o2fui0be29"] afterDelete).

(** The two closures of the one session with a handshake in between: the
    session is reported closed, a new transport draws its identifier, then
    the first transport closes. *)
Definition betweenClosures : list Event :=
  [SessionClosed 0; Request POST None quiet; Initialized 1 "0.o2fui0be29"].

Definition raced : State :=
  initialize 1 (sessionIdGenerator "0.o2fui0be29")
    (snd (post None quiet (onsessionclosed "0be29" oneSession))).

End Http.

(** ** What the handlers' guards let through *)

Module Validation.

Import Js Gitlab.

(** [v.k], with [undefined] where the read would throw. *)
Definition prop (v : Value) (k : string) : Value :=
  match field v k with
  | Some x => x
  | None => VUndefined
  end.

(** The fields create_merge_request_discussion demands of [position]. *)
Definition positionFields : list string :=
  ["base_sha"; "start_sha"; "head_sha"; "new_path"; "old_path"].

(** The arguments that pass every guard of the handler: the required ones
    truthy and, for three handlers, the second guard. *)
Definition accepts (tool : Tool) (p : Params) : bool :=
  forallb (fun k => truthy (lookup k (args p))) (required tool)
  && match tool with
     | UpdateMergeRequest =>
         truthy (lookup "title" (args p)) || truthy (lookup "description" (args p))
     | CreateMergeRequestDiscussion =>
         forallb (fun k => truthy (prop (lookup "position" (args p)) k)) positionFields
     | CreateMergeRequestDiscussionSimple =>
         isStr (lookup "line_type" (args p)) "new" || isStr (lookup "line_type" (args p)) "old"
     | _ => true
     end.

(** The arguments the handler writes into the path of its request can be
    written there: [project_id], and [file_path] for get_repository_file,
    pass through [encodeURIComponent(String(...))]; [merge_request_iid] is
    interpolated as it is. *)
Definition addressable (tool : Tool) (p : Params) : bool :=
  match tool with
  | ListProjects => true
  | GetProject | ListBranches | ListMergeRequests | ListIssues | CompareBranches =>
      encodes (lookup "project_id" (args p))
  | GetRepositoryFile =>
      encodes (lookup "project_id" (args p)) && encodes (lookup "file_path" (args p))
  | GetMergeRequest | GetMergeRequestChanges | CreateMergeRequestNote
  | UpdateMergeRequest | CreateMergeRequestNoteInternal
  | CreateMergeRequestDiscussion | CreateMergeRequestDiscussionSimple =>
      encodes (lookup "project_id" (args p))
      && convertible (lookup "merge_request_iid" (args p))
  end.

(** GitLab answers every request with [body], or refuses every request
    with [failure]. *)
Definition answering (body : Value) : Axios := fun _ _ => Response body.
Definition failing (failure : Failure) : Axios := fun _ _ => Rejected failure.

(** GitLab answers the first request after [log] with [first] and every
    later one with [second]. *)
Definition answeringTwice (log : list Call) (first second : Value) : Axios :=
  fun history _ =>
    if Nat.eqb (length history) (length log) then Response first else Response second.

(** A merge request with its three commit identifiers. *)
Definition sampleMergeRequest : Value :=
  VObj [ ("iid", VNum 12);
         ("diff_refs", VObj [ ("base_sha", VStr "b0");
                              ("start_sha", VStr "s0");
                              ("head_sha", VStr "h0") ]) ].

(** create_merge_request_discussion_simple on line 7 of the new side. *)
Definition lineSeven : Params :=
  {| name := "create_merge_request_discussion_simple";
     arguments := Some [ ("project_id", VStr "group/app");
                         ("merge_request_iid", VNum 12);
                         ("body", VStr "nit");
                         ("file_path", VStr "src/index.ts");
                         ("line_number", VNum 7);
                         ("line_type", VStr "new") ] |}.

(** get_merge_request on a merge request whose iid is the object
    [{"toString": null}]. *)
Definition unprintableIid : Params :=
  {| name := "get_merge_request";
     arguments := Some [ ("project_id", VNum 42);
                         ("merge_request_iid", VObj [("toString", VNull)]) ] |}.

(** get_project on project 42. *)
Definition project42 : Params :=
  {| name := "get_project"; arguments := Some [("project_id", VNum 42)] |}.

(** create_merge_request_discussion with a position typed as an image. *)
Definition typedPosition : Params :=
  {| name := "create_merge_request_discussion";
     arguments := Some [ ("project_id", VNum 42);
                         ("merge_request_iid", VNum 12);
                         ("body", VStr "nit");
                         ("position",
                          VObj [ ("position_type", VStr "image");
                                 ("base_sha", VStr "b0");
                                 ("start_sha", VStr "s0");
                                 ("head_sha", VStr "h0");
                                 ("new_path", VStr "a.ts");
                                 ("old_path", VStr "a.ts");
                                 ("new_line", VNum 3) ]) ] |}.

End Validation.

(** ** Request paths as text: [encodeURIComponent] and template literals *)

Module Uri.

Import Js Gitlab.

Definition isAlnum (c : ascii) : bool :=
  let n := N_of_ascii c in
  ((48 <=? n) && (n <=? 57) || (65 <=? n) && (n <=? 90) || (97 <=? n) && (n <=? 122))%N.

(** The characters [encodeURIComponent] leaves alone:
    A-Z a-z 0-9 - _ . ! ~ * ' ( ) *)
Definition unreserved (c : ascii) : bool :=
  isAlnum c
  || existsb (Ascii.eqb c) ["-"; "_"; "."; "!"; "~"; "*"; "'"; "("; ")"]%char.

Definition upperHex (n : N) : ascii :=
  match n with
  | 0%N => "0" | 1%N => "1" | 2%N => "2" | 3%N => "3" | 4%N => "4"
  | 5%N => "5" | 6%N => "6" | 7%N => "7" | 8%N => "8" | 9%N => "9"
  | 10%N => "A" | 11%N => "B" | 12%N => "C" | 13%N => "D" | 14%N => "E"
  | _ => "F"
  end%char.

(** Every other byte of the UTF-8 text becomes [%XX]. *)
Definition encodeChar (c : ascii) : string :=
  if unreserved c then String c ""
  else String "%" (String (upperHex (N_of_ascii c / 16))
                     (String (upperHex (N_of_ascii c mod 16)) "")).

Fixpoint encodeURIComponent (s : string) : string :=
  match s with
  | EmptyString => ""
  | String c rest => encodeChar c ++ encodeURIComponent rest
  end.

(** Reading the escapes back, byte by byte; [None] on a [%] that two
    hexadecimal digits do not follow. *)
Fixpoint unescapePercent (s : string) : option string :=
  match s with
  | EmptyString => Some ""
  | String c rest =>
      if Ascii.eqb c "%" then
        match rest with
        | String h1 (String h2 rest') =>
            match Json.hexValue h1, Json.hexValue h2, unescapePercent rest' with
            | Some x, Some y, Some text => Some (String (ascii_of_N (x * 16 + y)) text)
            | _, _, _ => None
            end
        | _ => None
        end
      else
        match unescapePercent rest with
        | Some text => Some (String c text)
        | None => None
        end
  end.

(** How often [c] occurs in [s]. *)
Fixpoint count (c : ascii) (s : string) : nat :=
  match s with
  | EmptyString => 0
  | String x rest => (if Ascii.eqb x c then 1 else 0) + count c rest
  end.

Section Text.

(** What [String] writes for an integer of magnitude 10^21 or more, which
    is in exponent notation ([1e+21]). *)
Variable exponential : Z -> string.

(** [String(v)], where it returns ([convertible]): an array joins its
    elements with commas, [null] and [undefined] elements giving nothing;
    an integer below 10^21 is written in decimal. *)
Fixpoint stringOf (v : Value) : string :=
  match v with
  | VUndefined => "undefined"
  | VNull => "null"
  | VBool true => "true"
  | VBool false => "false"
  | VNum n =>
      if (Z.abs n <? 1000000000000000000000)%Z then Json.numberText n
      else exponential n
  | VStr s => s
  | VArr items =>
      (fix join (l : list Value) : string :=
         match l with
         | [] => ""
         | x :: rest =>
             match x with
             | VUndefined | VNull => ""
             | _ => stringOf x
             end ++ match rest with
                    | [] => ""
                    | _ :: _ => String "," (join rest)
                    end
         end) items
  | VObj _ => "[object Object]"
  end.

(** The text of a path whose evaluation throws nothing
    ([templateThrows]). *)
Definition segmentText (seg : Segment) : string :=
  match seg with
  | Lit s => s
  | Encoded v => encodeURIComponent (stringOf v)
  | Raw v => stringOf v
  end.

Fixpoint urlText (segs : list Segment) : string :=
  match segs with
  | [] => ""
  | seg :: rest => segmentText seg ++ urlText rest
  end.

End Text.

(** A writer of large integers for the scenarios, which hold none. *)
Definition noExponent (n : Z) : string := "1e+21".

(** get_repository_file on a file two directories down. *)
Definition nestedFile : Params :=
  {| name := "get_repository_file";
     arguments := Some [ ("project_id", VStr "group/app");
                         ("file_path", VStr "src/utils/a b.ts") ] |}.

End Uri.

(** ** Start-up: the environment, the GitLab client, the transport *)

Module Startup.

(** The variables the server reads from [process.env], once dotenv has
    loaded the .env file. *)
Record Env : Type := mkEnv {
  GITLAB_API_TOKEN : option string;
  GITLAB_API_URL : option string;
  MCP_TRANSPORT : option string;
  MCP_HTTP_PORT : option string
}.

(** [process.env.X || fallback] *)
Definition orDefault (v : option string) (fallback : string) : string :=
  match v with
  | Some s => if String.eqb s "" then fallback else s
  | None => fallback
  end.

(** What [axios.create] is given. *)
Record Client : Type := mkClient {
  baseURL : string;
  privateToken : string   (* the PRIVATE-TOKEN header *)
}.

Section Main.

(** [parseInt] and the numbers it returns. *)
Variable Port : Type.
Variable parseInt : string -> Port.

Inductive Transport : Type :=
| Stdio                          (* server.start() *)
| StreamableHttp (port : Port).  (* server.startHttp(), listening on HTTP_PORT *)

(** Whether the promise of [server.start()] or [server.startHttp()] is
    fulfilled: connecting the transport can fail, and [app.listen] throws
    on a port that is not a number from 0 to 65535. *)
Variable starts : Transport -> bool.

Inductive Outcome : Type :=
| Exit (code : Z)                (* process.exit(code) *)
| Serving (client : Client) (transport : Transport).

(** The module body of index.ts, top to bottom: the configuration, the
    check of the token, the server and its client, the choice of the
    transport, and the [catch] of the start. *)
Definition main (env : Env) : Outcome :=
  let url := orDefault (GITLAB_API_URL env) "https://gitlab.com/api/v4" in
  let transportType := orDefault (MCP_TRANSPORT env) "stdio" in
  let port := parseInt (orDefault (MCP_HTTP_PORT env) "3000") in
  match GITLAB_API_TOKEN env with
  | None => Exit 1
  | Some token =>
      if String.eqb token "" then Exit 1
      else
        let transport :=
          if String.eqb transportType "http" then StreamableHttp port else Stdio in
        if starts transport then Serving {| baseURL := url; privateToken := token |} transport
        else Exit 1
  end.

End Main.

Arguments Stdio {Port}.
Arguments StreamableHttp {Port} port.
Arguments Exit {Port} code.
Arguments Serving {Port} client transport.

(** For the scenarios a port is kept as the text it is read from, and the
    start fails on the text [abc], which [parseInt] reads as no number. *)
Definition asRead (s : string) : string := s.

Definition refusesAbc (transport : @Transport string) : bool :=
  match transport with
  | Stdio => true
  | StreamableHttp port => negb (String.eqb port "abc")
  end.

(** An environment that names the transport in capitals. *)
Definition shouting : Env :=
  {| GITLAB_API_TOKEN := Some "glpat-x";
     GITLAB_API_URL := Some "";
     MCP_TRANSPORT := Some "HTTP";
     MCP_HTTP_PORT := None |}.

(** An environment whose port is no number. *)
Definition badPort : Env :=
  {| GITLAB_API_TOKEN := Some "glpat-x";
     GITLAB_API_URL := None;
     MCP_TRANSPORT := Some "http";
     MCP_HTTP_PORT := Some "abc" |}.

End Startup.

(** ** Runs of exchanges *)

Module Traffic.

Import Js Http.



End Traffic.

(** ** Facts about property lists *)

Module JsFacts.

Import Js.

Lemma lookup_remove_eq k ps : lookup k (remove k ps) = VUndefined.
Proof.
  induction ps as [|[k' v] ps IH]; simpl; [reflexivity|].
  destruct (String.eqb k k') eqn:E; simpl; [exact IH|].
  rewrite E. exact IH.
Qed.

Lemma lookup_remove_ne k k' ps :
  k <> k' -> lookup k (remove k' ps) = lookup k ps.
Proof.
  intros Hne. induction ps as [|[k2 v] ps IH]; simpl; [reflexivity|].
  destruct (String.eqb k' k2) eqn:E1.
  - apply String.eqb_eq in E1. subst k2.
    destruct (String.eqb k k') eqn:E2; [|exact IH].
    apply String.eqb_eq in E2. contradiction.
  - simpl. destruct (String.eqb k k2); [reflexivity|exact IH].
Qed.

End JsFacts.

(** ** JSON text read back *)

Module JsonFacts.

Import Js Json.

#[local] Arguments String.append !_ _ / : simpl nomatch.

(** *** Strings *)

Lemma append_assoc (a b c : string) : (a ++ b) ++ c = a ++ (b ++ c).
Proof. induction a as [|x a IH]; [reflexivity|]. simpl. f_equal. exact IH. Qed.

Lemma length_append (a b : string) :
  String.length (a ++ b) = (String.length a + String.length b)%nat.
Proof. induction a as [|x a IH]; [reflexivity|]. simpl. f_equal. exact IH. Qed.

Lemma length_cons c (s : string) : String.length (String c s) = S (String.length s).
Proof. reflexivity. Qed.

(** *** Induction over values *)

Lemma Value_ind (P : Value -> Prop) :
  P VUndefined -> P VNull -> (forall b, P (VBool b)) -> (forall n, P (VNum n)) ->
  (forall s, P (VStr s)) ->
  (forall items, Forall P items -> P (VArr items)) ->
  (forall props, Forall (fun kv => P (snd kv)) props -> P (VObj props)) ->
  forall v, P v.
Proof.
  intros Hu Hn Hb Hz Hs Ha Ho.
  fix IH 1. intros [| |b|n|s|items|props].
  - exact Hu.
  - exact Hn.
  - apply Hb.
  - apply Hz.
  - apply Hs.
  - apply Ha. induction items as [|x items IHl]; constructor; [apply IH|exact IHl].
  - apply Ho. induction props as [|[k x] props IHl]; constructor; [apply IH|exact IHl].
Qed.

(** *** Where a value's text starts and what may follow it *)

Lemma opens_not_closing c :
  opens c = true ->
  isWs c = false /\ Ascii.eqb c "]" = false /\ Ascii.eqb c "}" = false.
Proof.
  destruct c as [[] [] [] [] [] [] [] []]; intros H;
    solve [discriminate H | repeat split; reflexivity].
Qed.

(** *** Numbers *)

Lemma parseDigits_uintText d rest :
  delimited rest -> parseDigits (uintText d ++ rest) = (d, rest).
Proof.
  intros Hrest. induction d; simpl; try (rewrite IHd; reflexivity).
  destruct rest as [|c rest]; [reflexivity|]. simpl in *. rewrite Hrest. reflexivity.
Qed.

Lemma uintText_opens d :
  d <> Decimal.Nil ->
  exists c s, uintText d = String c s /\ opens c = true /\ Ascii.eqb c "-" = false
              /\ digitOf c <> None.
Proof.
  destruct d; intros H; [contradiction| ..]; simpl;
    eexists; eexists; (split; [reflexivity|]); repeat split; discriminate.
Qed.

Lemma parseNumber_uintText d rest :
  d <> Decimal.Nil -> delimited rest ->
  parseNumber (uintText d ++ rest) = Some (VNum (Z.of_int (Decimal.Pos d)), rest).
Proof.
  intros Hd Hrest. destruct (uintText_opens d Hd) as (c & s & E & _ & Hminus & _).
  unfold parseNumber. pose proof (parseDigits_uintText d rest Hrest) as Hp.
  rewrite E in *. simpl. rewrite Hminus. simpl in Hp. rewrite Hp.
  destruct d; [contradiction| ..]; reflexivity.
Qed.

Lemma to_int_digits n :
  match Z.to_int n with
  | Decimal.Pos d | Decimal.Neg d => d <> Decimal.Nil
  end.
Proof.
  destruct n; simpl; try apply DecimalPos.Unsigned.to_uint_nonnil. discriminate.
Qed.

Lemma parseNumber_numberText n rest :
  delimited rest -> parseNumber (numberText n ++ rest) = Some (VNum n, rest).
Proof.
  intros Hrest. unfold numberText.
  pose proof (to_int_digits n) as Hd. pose proof (DecimalZ.of_to n) as Hn.
  destruct (Z.to_int n) as [d|d].
  - rewrite parseNumber_uintText by assumption. rewrite Hn. reflexivity.
  - subst n. simpl. rewrite parseDigits_uintText by assumption.
    destruct d; [contradiction| ..]; reflexivity.
Qed.

Lemma numberText_opens n :
  exists c s, numberText n = String c s /\ opens c = true
              /\ Ascii.eqb c "n" = false /\ Ascii.eqb c "t" = false
              /\ Ascii.eqb c "f" = false /\ Ascii.eqb c dquote = false
              /\ Ascii.eqb c "[" = false /\ Ascii.eqb c "{" = false.
Proof.
  unfold numberText. pose proof (to_int_digits n) as Hd.
  destruct (Z.to_int n) as [d|d].
  - destruct d; [contradiction| ..]; simpl; eexists; eexists;
      (split; [reflexivity|]); repeat split; reflexivity.
  - simpl. eexists; eexists; (split; [reflexivity|]); repeat split; reflexivity.
Qed.

(** *** String literals *)

Lemma parseChars_escapeChar c tail :
  parseChars (escapeChar c ++ tail)
  = match parseChars tail with
    | Some (str, r) => Some (String c str, r)
    | None => None
    end.
Proof.
  destruct c as [[] [] [] [] [] [] [] []]; reflexivity.
Qed.

Lemma parseChars_escape s rest :
  parseChars (escape s ++ String dquote rest) = Some (s, rest).
Proof.
  induction s as [|c s IH]; [reflexivity|].
  change (escape (String c s)) with (escapeChar c ++ escape s).
  rewrite append_assoc, parseChars_escapeChar, IH. reflexivity.
Qed.

(** *** Arrays, objects and the whole value *)

Lemma render_array items : render (VArr items) = String "[" (elementsText items ++ "]").
Proof. reflexivity. Qed.

Lemma render_object props : render (VObj props) = String "{" (membersText true props ++ "}").
Proof. reflexivity. Qed.

Lemma elementsText_cons x y rest :
  elementsText (x :: y :: rest) = render x ++ String "," (elementsText (y :: rest)).
Proof. reflexivity. Qed.

Lemma membersText_cons first k x rest :
  x <> VUndefined ->
  membersText first ((k, x) :: rest)
  = (if first then "" else ",") ++ quote k ++ String ":" (render x) ++ membersText false rest.
Proof. destruct x; intros H; solve [contradiction | reflexivity]. Qed.

Lemma serializable_defined x : serializable x = true -> x <> VUndefined.
Proof. intros H ->. discriminate. Qed.

Lemma render_opens v : exists c s, render v = String c s /\ opens c = true.
Proof.
  destruct v as [| |[]|n|s|items|props];
    try (eexists; eexists; split; [reflexivity|reflexivity]).
  destruct (numberText_opens n) as (c & s & E & H & _). exists c, s. split; assumption.
Qed.

(** Unfolding the reader by one step. *)

Lemma parseValue_number fuel c s :
  opens c = true ->
  Ascii.eqb c "n" = false -> Ascii.eqb c "t" = false -> Ascii.eqb c "f" = false ->
  Ascii.eqb c dquote = false -> Ascii.eqb c "[" = false -> Ascii.eqb c "{" = false ->
  parseValue (S fuel) (String c s) = parseNumber (String c s).
Proof.
  intros Ho H1 H2 H3 H4 H5 H6. destruct (opens_not_closing c Ho) as (Hws & _).
  simpl. rewrite Hws, H1, H2, H3, H4, H5, H6. reflexivity.
Qed.

Lemma parseValue_array fuel tail :
  parseValue (S fuel) (String "[" tail)
  = match expect "]" (skipWs tail) with
    | Some r => Some (VArr [], r)
    | None =>
        match parseElements fuel tail with
        | Some (items, r) => Some (VArr items, r)
        | None => None
        end
    end.
Proof. reflexivity. Qed.

Lemma parseValue_object fuel tail :
  parseValue (S fuel) (String "{" tail)
  = match expect "}" (skipWs tail) with
    | Some r => Some (VObj [], r)
    | None =>
        match parseMembers fuel tail with
        | Some (props, r) => Some (VObj props, r)
        | None => None
        end
    end.
Proof. reflexivity. Qed.

Lemma parseElements_step fuel s :
  parseElements (S fuel) s
  = match parseValue fuel s with
    | Some (v, r) =>
        match skipWs r with
        | String c r1 =>
            if Ascii.eqb c "," then
              match parseElements fuel r1 with
              | Some (vs, r2) => Some (v :: vs, r2)
              | None => None
              end
            else if Ascii.eqb c "]" then Some ([v], r1)
            else None
        | EmptyString => None
        end
    | None => None
    end.
Proof. reflexivity. Qed.

Lemma parseMembers_step fuel s :
  parseMembers (S fuel) s
  = match expect (String dquote "") (skipWs s) with
    | Some r =>
        match parseChars r with
        | Some (k, r1) =>
            match expect ":" (skipWs r1) with
            | Some r2 =>
                match parseValue fuel r2 with
                | Some (v, r3) =>
                    match skipWs r3 with
                    | String c r4 =>
                        if Ascii.eqb c "," then
                          match parseMembers fuel r4 with
                          | Some (ms, r5) => Some ((k, v) :: ms, r5)
                          | None => None
                          end
                        else if Ascii.eqb c "}" then Some ([(k, v)], r4)
                        else None
                    | EmptyString => None
                    end
                | None => None
                end
            | None => None
            end
        | None => None
        end
    | None => None
    end.
Proof. reflexivity. Qed.

(** A value's text is not taken for the end of an array or object. *)
Lemma expect_closing_fails (closing : ascii) c s :
  opens c = true -> Ascii.eqb c closing = false ->
  expect (String closing "") (skipWs (String c s)) = None.
Proof.
  intros Ho Hc. destruct (opens_not_closing c Ho) as (Hws & _).
  simpl. rewrite Hws. simpl. rewrite Ascii.eqb_sym, Hc. reflexivity.
Qed.

Lemma elements_read items :
  Forall readsBack items -> items <> [] ->
  forall fuel rest,
    (String.length (elementsText items) + 1 <= fuel)%nat ->
    parseElements fuel (elementsText items ++ String "]" rest) = Some (items, rest).
Proof.
  induction 1 as [|x items Hx Hitems IH]; intros Hne fuel rest Hlen; [contradiction|].
  destruct fuel as [|fuel]; [lia|]. rewrite parseElements_step.
  destruct items as [|y items].
  - change (elementsText [x]) with (render x) in *.
    rewrite (Hx fuel (String "]" rest)) by (simpl; first [lia | reflexivity]).
    reflexivity.
  - rewrite elementsText_cons in Hlen |- *.
    rewrite length_append, length_cons in Hlen.
    rewrite append_assoc.
    change (String "," (elementsText (y :: items)) ++ String "]" rest)
      with (String "," (elementsText (y :: items) ++ String "]" rest)).
    rewrite (Hx fuel) by (simpl; first [lia | reflexivity]).
    simpl skipWs. simpl Ascii.eqb. cbv iota.
    rewrite IH by (first [discriminate | lia]). reflexivity.
Qed.

Lemma membersText_false k x rest :
  x <> VUndefined ->
  membersText false ((k, x) :: rest) = String "," (membersText true ((k, x) :: rest)).
Proof. intros H. rewrite !membersText_cons by exact H. reflexivity. Qed.

Lemma parseValue_string fuel tail :
  parseValue (S fuel) (String dquote tail)
  = match parseChars tail with
    | Some (str, r) => Some (VStr str, r)
    | None => None
    end.
Proof. reflexivity. Qed.

Lemma parseMembers_key fuel k tail :
  parseMembers (S fuel) (String dquote (escape k ++ String dquote (String ":" tail)))
  = match parseValue fuel tail with
    | Some (v, r3) =>
        match skipWs r3 with
        | String c r4 =>
            if Ascii.eqb c "," then
              match parseMembers fuel r4 with
              | Some (ms, r5) => Some ((k, v) :: ms, r5)
              | None => None
              end
            else if Ascii.eqb c "}" then Some ([(k, v)], r4)
            else None
        | EmptyString => None
        end
    | None => None
    end.
Proof.
  rewrite parseMembers_step.
  assert (E1 : expect (String dquote "")
                 (skipWs (String dquote (escape k ++ String dquote (String ":" tail))))
               = Some (escape k ++ String dquote (String ":" tail))) by reflexivity.
  rewrite E1. cbv beta iota. rewrite parseChars_escape. cbv beta iota.
  assert (E2 : expect ":" (skipWs (String ":" tail)) = Some tail) by reflexivity.
  rewrite E2. reflexivity.
Qed.

Lemma members_read props :
  Forall (fun kv => readsBack (snd kv)) props ->
  forallb (fun kv => serializable (snd kv)) props = true ->
  props <> [] ->
  forall fuel rest,
    (String.length (membersText true props) + 1 <= fuel)%nat ->
    parseMembers fuel (membersText true props ++ String "}" rest) = Some (props, rest).
Proof.
  induction 1 as [|[k x] props Hx Hprops IH]; intros Hser Hne fuel rest Hlen; [contradiction|].
  simpl in Hser. apply andb_true_iff in Hser as [Hsx Hsp].
  pose proof (serializable_defined x Hsx) as Hdef.
  destruct fuel as [|fuel]; [lia|].
  rewrite membersText_cons in Hlen |- * by exact Hdef.
  unfold quote in Hlen |- *.
  repeat rewrite ?length_append, ?length_cons in Hlen.
  simpl String.append. rewrite !append_assoc. simpl String.append.
  rewrite append_assoc. rewrite parseMembers_key.
  simpl in Hx.
  destruct props as [|[k' x'] props].
  - change (membersText false []) with "" in Hlen |- *. simpl String.append.
    simpl String.length in Hlen.
    rewrite (Hx fuel (String "}" rest)) by (first [lia | reflexivity]).
    reflexivity.
  - simpl in Hsp. apply andb_true_iff in Hsp as [Hsx' Hsp'].
    pose proof (serializable_defined x' Hsx') as Hdef'.
    rewrite membersText_false in Hlen |- * by exact Hdef'.
    rewrite length_cons in Hlen. simpl String.append.
    rewrite (Hx fuel) by (first [lia | reflexivity]).
    simpl skipWs. simpl Ascii.eqb. cbv iota.
    rewrite IH; [reflexivity| |discriminate|lia].
    simpl. rewrite Hsx', Hsp'. reflexivity.
Qed.

Lemma append_empty (s : string) : s ++ "" = s.
Proof. induction s as [|c s IH]; [reflexivity|]. simpl. f_equal. exact IH. Qed.

Lemma render_nonempty v : (1 <= String.length (render v))%nat.
Proof. destruct (render_opens v) as (c & s & E & _). rewrite E. simpl. lia. Qed.

(** Every value without [undefined] is read back from its text. *)
Lemma serializable_readsBack v : serializable v = true -> readsBack v.
Proof.
  induction v as [| |b|n|s|items IH|props IH] using Value_ind;
    intros Hser fuel rest Hlen Hrest;
    (destruct fuel as [|fuel];
     [match type of Hlen with
      | (String.length (render ?v) <= _)%nat => pose proof (render_nonempty v)
      end; lia|]).
  - discriminate.
  - reflexivity.
  - destruct b; reflexivity.
  - destruct (numberText_opens n) as (c & t & E & Ho & H1 & H2 & H3 & H4 & H5 & H6).
    change (render (VNum n)) with (numberText n). rewrite E. simpl String.append.
    rewrite parseValue_number by assumption.
    change (String c (t ++ rest)) with (String c t ++ rest). rewrite <- E.
    apply parseNumber_numberText, Hrest.
  - change (render (VStr s)) with (quote s). unfold quote. simpl String.append.
    rewrite append_assoc. simpl String.append.
    rewrite parseValue_string, parseChars_escape. reflexivity.
  - rewrite render_array in Hlen |- *. simpl String.append. rewrite append_assoc.
    simpl String.append. rewrite parseValue_array.
    rewrite length_cons, length_append in Hlen. simpl in Hlen.
    simpl in Hser.
    destruct items as [|x items]; [reflexivity|].
    assert (Hall : Forall readsBack (x :: items)).
    { clear Hlen. rewrite Forall_forall in IH |- *. intros y Hy. apply IH; [exact Hy|].
      rewrite forallb_forall in Hser. apply Hser, list_elem_of_In, Hy. }
    destruct (render_opens x) as (c & t & E & Ho).
    destruct (opens_not_closing c Ho) as (_ & Hc & _).
    assert (Hhead : exists t', elementsText (x :: items) ++ String "]" rest = String c t').
    { destruct items; [change (elementsText [x]) with (render x)|rewrite elementsText_cons];
        rewrite E; eexists; reflexivity. }
    destruct Hhead as (t' & Et'). rewrite Et'.
    rewrite (expect_closing_fails "]" c t' Ho Hc). rewrite <- Et'.
    rewrite (elements_read (x :: items) Hall) by (first [discriminate | lia]).
    reflexivity.
  - rewrite render_object in Hlen |- *. simpl String.append. rewrite append_assoc.
    simpl String.append. rewrite parseValue_object.
    rewrite length_cons, length_append in Hlen. simpl in Hlen.
    simpl in Hser.
    destruct props as [|[k x] props]; [reflexivity|].
    assert (Hall : Forall (fun kv => readsBack (snd kv)) ((k, x) :: props)).
    { clear Hlen. rewrite Forall_forall in IH |- *. intros y Hy. apply IH; [exact Hy|].
      rewrite forallb_forall in Hser. apply (Hser y), list_elem_of_In, Hy. }
    assert (Hdef : x <> VUndefined).
    { apply serializable_defined. simpl in Hser. apply andb_true_iff in Hser as [H _]. exact H. }
    assert (Hhead : exists t',
               membersText true ((k, x) :: props) ++ String "}" rest = String dquote t').
    { rewrite membersText_cons by exact Hdef. unfold quote. eexists. reflexivity. }
    destruct Hhead as (t' & Et'). rewrite Et'.
    rewrite (expect_closing_fails "}" dquote t') by reflexivity. rewrite <- Et'.
    rewrite (members_read ((k, x) :: props) Hall Hser) by (first [discriminate | lia]).
    reflexivity.
Qed.

Lemma parse_render v : serializable v = true -> parse (render v) = Some v.
Proof.
  intros Hser. unfold parse.
  pose proof (serializable_readsBack v Hser (S (String.length (render v))) "") as H.
  rewrite append_empty in H. rewrite H by (simpl; first [lia | exact I]). reflexivity.
Qed.

End JsonFacts.

(** ** The handlers' guards and the dispatch *)

Module ToolsFacts.

Import Js Gitlab.

Lemma args_without k p : args (without k p) = remove k (args p).
Proof. reflexivity. Qed.

Lemma lookup_absent k ps :
  ~ In k (map fst ps) -> lookup k ps = VUndefined.
Proof.
  induction ps as [|[k' v] ps IH]; simpl; [reflexivity|]. intros H.
  destruct (String.eqb k k') eqn:E.
  - apply String.eqb_eq in E. subst k'. exfalso. apply H. left. reflexivity.
  - apply IH. intros Hin. apply H. right. exact Hin.
Qed.





(** Case analysis on every truthiness test a handler makes. *)
Ltac guards :=
  repeat match goal with
         | |- context [truthy (lookup ?k ?a)] => destruct (truthy (lookup k a)); simpl
         end.

(** A handler whose required argument [k] is falsy throws at its first
    guard, before any request, with a message that names [k] and depends on
    nothing else. *)
Lemma falsy_required_throws tool k :
  In k (required tool) ->
  exists message,
    mentions k message = true
    /\ forall p axios log,
         truthy (lookup k (args p)) = false ->
         handlerOf tool p axios log = (Threw (McpError InvalidParams message), log).
Proof.
  intros Hin. destruct tool; simpl in Hin;
    repeat match goal with
           | H : _ \/ _ |- _ => destruct H as [<-|H]
           | H : False |- _ => destruct H
           end;
    eexists; (split; [shelve|]); intros p axios log Hk; simpl;
    match goal with
    | |- ?h _ _ _ = _ => unfold h
    end; rewrite Hk; guards; reflexivity.
  Unshelve. all: vm_compute; reflexivity.
Qed.

Lemma throw_passes_dispatch (registry : gmap string ToolHandler) fmt p
    (handler : ToolHandler) axios log code message log' :
  registry !! name p = Some handler ->
  handler p axios log = (Threw (McpError code message), log') ->
  callTool registry fmt p axios log = (Threw (McpError code message), log').
Proof.
  intros Hreg Hh. unfold callTool, dispatch. rewrite Hreg, Hh. reflexivity.
Qed.

(** C5: a call-tool invocation whose arguments omit an argument the tool
    requires ends in an invalid-params protocol error whose message names
    the missing argument, and the log of requests to GitLab is what it was
    before the call; so for get_project called without project_id. *)
Theorem missing_required_argument (registry : gmap string ToolHandler) fmt tool p k axios log :
  registry !! name p = Some (handlerOf tool) ->
  In k (required tool) ->
  lookup k (args p) = VUndefined ->
  exists message,
    callTool registry fmt p axios log = (Threw (McpError InvalidParams message), log)
    /\ handlerOf tool p axios log = (Threw (McpError InvalidParams message), log)
    /\ mentions k message = true.
Proof.
  intros Hreg Hin Hk.
  destruct (falsy_required_throws tool k Hin) as (message & Hm & Hh).
  assert (Hthrow : handlerOf tool p axios log = (Threw (McpError InvalidParams message), log)).
  { apply Hh. rewrite Hk. reflexivity. }
  exists message. split; [|split; assumption].
  eapply throw_passes_dispatch; eassumption.
Qed.

Lemma missing_required_argument_witness :
  exists message,
    callTool {[ "get_project" := getProject ]} keepError
      {| name := "get_project"; arguments := Some [("verbose", VBool true)] |} noAxios []
    = (Threw (McpError InvalidParams message), [])
    /\ handlerOf GetProject
         {| name := "get_project"; arguments := Some [("verbose", VBool true)] |} noAxios []
       = (Threw (McpError InvalidParams message), [])
    /\ mentions "project_id" message = true.
Proof.
  apply (missing_required_argument {[ "get_project" := getProject ]} keepError GetProject
           {| name := "get_project"; arguments := Some [("verbose", VBool true)] |}
           "project_id" noAxios []).
  - reflexivity.
  - simpl. left. reflexivity.
  - reflexivity.
Defined.

(** The message of the get_project scenario, and its empty log. *)
Example get_project_without_project_id :
  callTool {[ "get_project" := getProject ]} keepError
    {| name := "get_project"; arguments := None |} noAxios []
  = (Threw (McpError InvalidParams "project_id is required"), []).
Proof. reflexivity. Qed.

(** The fields of the position object are guarded the same way: with the
    four arguments present and one field of [position] missing or falsy,
    create_merge_request_discussion throws before any request. *)
Lemma position_field_required p fields k axios log :
  truthy (lookup "project_id" (args p)) = true ->
  truthy (lookup "merge_request_iid" (args p)) = true ->
  truthy (lookup "body" (args p)) = true ->
  lookup "position" (args p) = VObj fields ->
  In k ["base_sha"; "start_sha"; "head_sha"; "new_path"; "old_path"] ->
  truthy (lookup k fields) = false ->
  createMergeRequestDiscussion p axios log
  = (Threw (McpError InvalidParams
              "position must include base_sha, start_sha, head_sha, new_path, and old_path"),
     log).
Proof.
  intros H1 H2 H3 Hpos Hin Hk. unfold createMergeRequestDiscussion.
  rewrite H1, H2, H3, Hpos. simpl. unfold bind, read, ret. simpl.
  simpl in Hin.
  repeat match goal with
         | H : _ \/ _ |- _ => destruct H as [<-|H]
         | H : False |- _ => destruct H
         end;
    rewrite Hk; guards; reflexivity.
Qed.




(** C7: a protocol error raised by the resolved handler leaves the
    dispatch as it was raised; any other failure leaves it as what the
    error formatter makes of it and of the message "Error executing GitLab
    operation"; the requests made up to the failure stay in the log. *)
Theorem handler_failure_propagates (registry : gmap string ToolHandler) fmt p
    (handler : ToolHandler) axios log :
  registry !! name p = Some handler ->
  (forall code message log',
      handler p axios log = (Threw (McpError code message), log') ->
      callTool registry fmt p axios log = (Threw (McpError code message), log'))
  /\ (forall failure log',
        handler p axios log = (Threw (Other failure), log') ->
        callTool registry fmt p axios log
        = (Threw (fmt (Other failure) "Error executing GitLab operation"), log'))
  /\ (forall result log',
        handler p axios log = (Returned result, log') ->
        callTool registry fmt p axios log = (Returned result, log')).
Proof.
  intros Hreg. unfold callTool, dispatch. rewrite Hreg.
  repeat split; intros;
    match goal with H : handler _ _ _ = _ |- _ => rewrite H end; reflexivity.
Qed.

Lemma handler_failure_propagates_witness :
  ({[ "get_project" := getProject ]} : gmap string ToolHandler) !! "get_project"
  = Some getProject
  /\ callTool {[ "get_project" := getProject ]} wrapError
       {| name := "get_project"; arguments := Some [("project_id", VNum 7)] |} notFound []
     = (Threw (McpError InternalError "Error executing GitLab operation"),
        [ {| verb := HttpGet; url := project (VNum 7); params := []; data := [] |} ]).
Proof.
  assert (H : ({[ "get_project" := getProject ]} : gmap string ToolHandler)
              !! name {| name := "get_project"; arguments := Some [("project_id", VNum 7)] |}
              = Some getProject) by reflexivity.
  split; [exact H|].
  refine (proj1 (proj2 (handler_failure_propagates {[ "get_project" := getProject ]}
                          wrapError _ getProject notFound [] H)) _ _ _).
  reflexivity.
Defined.

(** C9: a required argument whose value is falsy (0, the empty string,
    false, null) is treated as if it were absent: the handler ends as it
    does on the same arguments without it, in the invalid-params error that
    names it, and sends nothing; so create_merge_request_discussion_simple
    with line_number 0.  A falsy per_page of list_projects is replaced by
    20 in the request sent, as an absent one is. *)
Theorem falsy_argument_is_absent :
  (forall tool p k axios log,
      In k (required tool) ->
      truthy (lookup k (args p)) = false ->
      handlerOf tool p axios log = handlerOf tool (without k p) axios log
      /\ exists message,
           handlerOf tool p axios log = (Threw (McpError InvalidParams message), log)
           /\ mentions k message = true)
  /\ (forall p axios log,
        truthy (lookup "per_page" (args p)) = false ->
        listProjects p axios log = listProjects (without "per_page" p) axios log
        /\ exists call,
             snd (listProjects p axios log) = (log ++ [call])%list
             /\ lookup "per_page" (params call) = VNum 20).
Proof.
  split.
  - intros tool p k axios log Hin Hk.
    destruct (falsy_required_throws tool k Hin) as (message & Hm & Hh).
    rewrite (Hh p axios log Hk).
    rewrite (Hh (without k p) axios log).
    + split; [reflexivity|]. exists message. split; [reflexivity|exact Hm].
    + rewrite args_without, JsFacts.lookup_remove_eq. reflexivity.
  - intros p axios log Hk. split.
    + unfold listProjects. rewrite args_without.
      rewrite !JsFacts.lookup_remove_ne by discriminate.
      rewrite JsFacts.lookup_remove_eq. unfold or. rewrite Hk. reflexivity.
    + unfold listProjects, or. rewrite Hk. unfold bind, request.
      eexists. split.
      * destruct (axios log _); reflexivity.
      * reflexivity.
Qed.

Lemma falsy_argument_is_absent_witness :
  In "line_number" (required CreateMergeRequestDiscussionSimple)
  /\ truthy (lookup "line_number" (args lineZero)) = false
  /\ createMergeRequestDiscussionSimple lineZero noAxios []
     = createMergeRequestDiscussionSimple (without "line_number" lineZero) noAxios []
  /\ exists message,
       createMergeRequestDiscussionSimple lineZero noAxios []
       = (Threw (McpError InvalidParams message), [])
       /\ mentions "line_number" message = true.
Proof.
  assert (H1 : In "line_number" (required CreateMergeRequestDiscussionSimple)).
  { simpl. do 4 right. left. reflexivity. }
  assert (H2 : truthy (lookup "line_number" (args lineZero)) = false) by reflexivity.
  split; [exact H1|]. split; [exact H2|].
  exact (proj1 falsy_argument_is_absent CreateMergeRequestDiscussionSimple lineZero
           "line_number" noAxios [] H1 H2).
Defined.

(** The two scenarios, evaluated. *)
Example line_number_zero :
  createMergeRequestDiscussionSimple lineZero noAxios []
  = (Threw (McpError InvalidParams
       "project_id, merge_request_iid, body, file_path, line_number, and line_type are required"),
     []).
Proof. reflexivity. Qed.

Example per_page_zero :
  snd (listProjects {| name := "list_projects"; arguments := Some [("per_page", VNum 0)] |}
         noAxios [])
  = [ {| verb := HttpGet; url := [Lit "/projects"];
         params := [ ("search", VUndefined); ("owned", VUndefined);
                     ("membership", VUndefined); ("per_page", VNum 20) ];
         data := [] |} ].
Proof. reflexivity. Qed.

(** C10 (amended): get_repository_file with project_id and file_path
    present and ref absent or falsy, when both can be written into the
    path (String returns and the text holds no lone surrogate), sends one
    request, to the file's path, with the parameter ref set to the text
    "main".  When one of them cannot, the handler throws the TypeError or
    URIError of the conversion and sends nothing. *)
Theorem repository_file_defaults_to_main p axios log :
  truthy (lookup "project_id" (args p)) = true ->
  truthy (lookup "file_path" (args p)) = true ->
  truthy (lookup "ref" (args p)) = false ->
  (encodes (lookup "project_id" (args p)) = true ->
   encodes (lookup "file_path" (args p)) = true ->
   snd (getRepositoryFile p axios log)
   = (log ++ [ {| verb := HttpGet;
                  url := [ Lit "/projects/"; Encoded (lookup "project_id" (args p));
                           Lit "/repository/files/"; Encoded (lookup "file_path" (args p)) ];
                  params := [("ref", VStr "main")];
                  data := [] |} ])%list)
  /\ (encodes (lookup "project_id" (args p)) && encodes (lookup "file_path" (args p)) = false ->
      exists failure,
        getRepositoryFile p axios log = (Threw (Other failure), log)
        /\ (failure = TypeError \/ failure = URIError)).
Proof.
  intros Hp Hf Hr. unfold getRepositoryFile, or. rewrite Hp, Hf, Hr. simpl.
  unfold bind, request, encodes. simpl.
  destruct (convertible (lookup "project_id" (args p)));
    destruct (malformed (lookup "project_id" (args p)));
    destruct (convertible (lookup "file_path" (args p)));
    destruct (malformed (lookup "file_path" (args p)));
    simpl; (split; [intros H1 H2; try discriminate H1; try discriminate H2
                   |intros H; try discriminate H]);
    try (destruct (axios log _); reflexivity);
    eexists; (split; [reflexivity|]); auto.
Qed.

Lemma repository_file_defaults_to_main_witness :
  truthy (lookup "project_id" [("project_id", VNum 42); ("file_path", VStr "README.md")]) = true
  /\ truthy (lookup "file_path" [("project_id", VNum 42); ("file_path", VStr "README.md")]) = true
  /\ truthy (lookup "ref" [("project_id", VNum 42); ("file_path", VStr "README.md")]) = false
  /\ encodes (VNum 42) = true
  /\ encodes (VStr "README.md") = true
  /\ snd (getRepositoryFile
            {| name := "get_repository_file";
               arguments := Some [("project_id", VNum 42); ("file_path", VStr "README.md")] |}
            noAxios [])
     = [ {| verb := HttpGet;
            url := [ Lit "/projects/"; Encoded (VNum 42);
                     Lit "/repository/files/"; Encoded (VStr "README.md") ];
            params := [("ref", VStr "main")];
            data := [] |} ].
Proof.
  split; [reflexivity|]. split; [reflexivity|]. split; [reflexivity|].
  split; [reflexivity|]. split; [reflexivity|].
  exact (proj1 (repository_file_defaults_to_main
                  {| name := "get_repository_file";
                     arguments := Some [("project_id", VNum 42); ("file_path", VStr "README.md")] |}
                  noAxios [] eq_refl eq_refl eq_refl) eq_refl eq_refl).
Defined.

(** With project_id and file_path present and no ref, no request is made
    at all when the project id cannot be written into the path: a text
    with a lone surrogate makes [encodeURIComponent] throw a URIError, an
    object with an own [toString] makes [String] throw a TypeError. *)
Lemma unencodable_project_sends_nothing :
  truthy (lookup "project_id" (args unpairedProject)) = true
  /\ truthy (lookup "file_path" (args unpairedProject)) = true
  /\ lookup "ref" (args unpairedProject) = VUndefined
  /\ getRepositoryFile unpairedProject notFound [] = (Threw (Other URIError), [])
  /\ truthy (lookup "project_id" (args unprintableProject)) = true
  /\ truthy (lookup "file_path" (args unprintableProject)) = true
  /\ lookup "ref" (args unprintableProject) = VUndefined
  /\ getRepositoryFile unprintableProject notFound [] = (Threw (Other TypeError), []).
Proof. repeat split; reflexivity. Qed.

(** C8: for every JSON value x (no undefined inside), formatResponse x is
    the envelope of one text block holding the serialized x, and reading
    the block's text back yields x. *)
Theorem formatResponse_round_trip (x : Value) :
  Json.serializable x = true ->
  formatResponse x
  = VObj [ ("content", VArr [ VObj [ ("type", VStr "text");
                                     ("text", VStr (Json.render x)) ] ]) ]
  /\ Json.stringify x = Some (Json.render x)
  /\ extractPayload (formatResponse x) = Some x.
Proof.
  intros Hser.
  assert (Hs : Json.stringify x = Some (Json.render x)).
  { destruct x; solve [discriminate Hser | reflexivity]. }
  unfold formatResponse. rewrite Hs. repeat split.
  unfold extractPayload. simpl. apply JsonFacts.parse_render, Hser.
Qed.

Lemma formatResponse_round_trip_witness :
  Json.serializable sampleProject = true
  /\ extractPayload (formatResponse sampleProject) = Some sampleProject.
Proof.
  assert (H : Json.serializable sampleProject = true) by reflexivity.
  split; [exact H|].
  exact (proj2 (proj2 (formatResponse_round_trip sampleProject H))).
Defined.

End ToolsFacts.

(** ** The session table: rejection, closure, registration, health *)

Module HttpFacts.

Import Js Http.

Lemma getProp_missing (tbl : gmap string TransportRef) (k : string) :
  tbl !! k = None -> inherited k = false -> getProp tbl k = Missing.
Proof. intros H1 H2. unfold getProp. rewrite H1, H2. reflexivity. Qed.

Lemma getProp_own (tbl : gmap string TransportRef) (k : string) (t : TransportRef) :
  tbl !! k = Some t -> getProp tbl k = Own t.
Proof. intros H. unfold getProp. rewrite H. reflexivity. Qed.

Lemma nonempty_eqb (s : string) : s <> "" -> String.eqb s "" = false.
Proof. intros H. apply String.eqb_neq. exact H. Qed.

(** A request whose identifier resolves to nothing is answered 400 and
    changes nothing. *)
Lemma mcp_missing m sid sdk st :
  sid <> "" -> getProp (transports st) sid = Missing ->
  mcp m (Some sid) sdk st = (Json 400 invalidSession, st).
Proof.
  intros Hne Hmiss. destruct m; simpl.
  - unfold post. rewrite Hmiss, (nonempty_eqb _ Hne). reflexivity.
  - unfold getOrDelete. simpl. rewrite Hmiss. reflexivity.
  - unfold getOrDelete. simpl. rewrite Hmiss. reflexivity.
Qed.

(** No route writes to the session table or to a transport's identifier. *)
Lemma mcp_keeps_table m sessionId sdk st :
  transports (snd (mcp m sessionId sdk st)) = transports st
  /\ sessionIdOf (snd (mcp m sessionId sdk st)) = sessionIdOf st
  /\ gitlab (snd (mcp m sessionId sdk st)) = gitlab st
  /\ (constructed st <= constructed (snd (mcp m sessionId sdk st)))%nat.
Proof.
  destruct m; simpl.
  - unfold post.
    destruct (_ && _); [simpl; auto|].
    destruct (negb _); [|simpl; auto].
    destruct (connectThrows sdk); simpl; auto.
  - unfold getOrDelete. destruct (getProp _ _); simpl; auto.
  - unfold getOrDelete. destruct (getProp _ _); simpl; auto.
Qed.

(** The same for a whole exchange; GET and DELETE read the table under
    the empty identifier as under any other. *)
Lemma exchange_missing parser m sid sdk callbacks st :
  (m = POST -> sid <> "") ->
  getProp (transports st) sid = Missing ->
  exchange parser m (Some sid) sdk callbacks st
  = (match parser with
     | Next => ByRoute (Json 400 invalidSession)
     | Refuse status => ByParser status
     end, st).
Proof.
  intros Hne Hmiss. destruct parser as [|status]; [|reflexivity].
  unfold exchange. destruct m; simpl.
  - unfold post. rewrite Hmiss, (nonempty_eqb _ (Hne eq_refl)). reflexivity.
  - unfold getOrDelete. simpl. rewrite Hmiss. reflexivity.
  - unfold getOrDelete. simpl. rewrite Hmiss. reflexivity.
Qed.

(** A name the table inherits reads a value without [handleRequest]: the
    route's [catch] answers, and no transport is at work. *)
Lemma exchange_inherited m sid sdk callbacks st :
  sid <> "" ->
  getProp (transports st) sid = Inherited ->
  exchange Next m (Some sid) sdk callbacks st = (ByRoute (caught m), st).
Proof.
  intros Hne Hinh. unfold exchange. destruct m; simpl.
  - unfold post. rewrite Hinh, (nonempty_eqb _ Hne). reflexivity.
  - unfold getOrDelete. simpl. rewrite Hinh. reflexivity.
  - unfold getOrDelete. simpl. rewrite Hinh. reflexivity.
Qed.

(** [awaited] names the transport the route hands the request to: when
    there is one the answer is that transport's, or the route's catch if
    it throws; and an answer by a transport comes from the one awaited. *)
Lemma awaited_answer m h sdk st t :
  awaited m h sdk st = Some t ->
  fst (mcp m h sdk st) = (if handleThrows sdk then caught m else Handled t).
Proof.
  destruct m; simpl.
  - unfold post. destruct h as [s|]; simpl.
    + destruct (String.eqb s ""); simpl.
      * destruct (connectThrows sdk); [discriminate|]. intros H. injection H as <-.
        reflexivity.
      * destruct (getProp (transports st) s); try discriminate.
        intros H. injection H as <-. reflexivity.
    + destruct (connectThrows sdk); [discriminate|]. intros H. injection H as <-.
      reflexivity.
  - unfold getOrDelete. destruct (getProp (transports st) (keyOf h)); try discriminate.
    intros H. injection H as <-. reflexivity.
  - unfold getOrDelete. destruct (getProp (transports st) (keyOf h)); try discriminate.
    intros H. injection H as <-. reflexivity.
Qed.

Lemma handled_awaited m h sdk st t :
  fst (mcp m h sdk st) = Handled t -> awaited m h sdk st = Some t.
Proof.
  destruct m; simpl.
  - unfold post. destruct h as [s|]; simpl.
    + destruct (String.eqb s ""); simpl.
      * destruct (connectThrows sdk); simpl; [discriminate|].
        destruct (handleThrows sdk); [discriminate|]. intros H. injection H as <-.
        reflexivity.
      * destruct (getProp (transports st) s); simpl; try discriminate.
        destruct (handleThrows sdk); [discriminate|]. intros H. injection H as <-.
        reflexivity.
    + destruct (connectThrows sdk); simpl; [discriminate|].
      destruct (handleThrows sdk); [discriminate|]. intros H. injection H as <-.
      reflexivity.
  - unfold getOrDelete. destruct (getProp (transports st) (keyOf h)); simpl; try discriminate.
    destruct (handleThrows sdk); [discriminate|]. intros H. injection H as <-. reflexivity.
  - unfold getOrDelete. destruct (getProp (transports st) (keyOf h)); simpl; try discriminate.
    destruct (handleThrows sdk); [discriminate|]. intros H. injection H as <-. reflexivity.
Qed.




(** *** Reachable states are consistent *)

Lemma allBase36_substringFrom n s :
  allBase36 s = true -> allBase36 (substringFrom n s) = true.
Proof.
  revert s. induction n as [|n IH]; intros s H; [exact H|].
  destruct s as [|c s]; simpl; [reflexivity|].
  simpl in H. apply andb_true_iff in H as [_ H]. apply IH, H.
Qed.

Lemma generated_base36 r :
  isRandom36 r = true -> allBase36 (sessionIdGenerator r) = true.
Proof.
  unfold isRandom36, sessionIdGenerator. intros H.
  destruct r as [|a r]; [discriminate|].
  destruct (Ascii.eqb a "0") eqn:Ea;
    [apply Ascii.eqb_eq in Ea; subst a
    |destruct a as [[] [] [] [] [] [] [] []]; try discriminate Ea; discriminate H].
  destruct r as [|b r]; [reflexivity|].
  destruct (Ascii.eqb b ".") eqn:Eb;
    [apply Ascii.eqb_eq in Eb; subst b
    |destruct b as [[] [] [] [] [] [] [] []]; try discriminate Eb; discriminate H].
  destruct r as [|c r]; [discriminate|].
  change (allBase36 (substringFrom 5 (String c r)) = true).
  apply allBase36_substringFrom, H.
Qed.

(** Of the names the table inherits, one is made of base-36 digits. *)
Lemma inherited_base36 k :
  inherited k = true -> allBase36 k = true -> k = "constructor".
Proof.
  unfold inherited. simpl. rewrite !orb_true_iff.
  intros H Hb.
  repeat match goal with
         | H : _ \/ _ |- _ => destruct H as [H|H]
         end;
    try discriminate H;
    apply String.eqb_eq in H; subst k; solve [reflexivity | discriminate Hb].
Qed.

Lemma consistent_initial : consistent initial.
Proof. split; simpl; intros ? ? H; rewrite lookup_empty in H; discriminate. Qed.

Lemma consistent_delete id st :
  consistent st -> consistent (withTransports (fun tbl => delete id tbl) st).
Proof.
  intros [Ha Hb]. split; simpl; [|exact Hb].
  intros k t H. apply lookup_delete_Some in H as [_ H]. apply Ha, H.
Qed.

Section Reachability.

Variable toolRegistry : gmap string Gitlab.ToolHandler.
Variable handleApiError : Gitlab.Thrown -> string -> Gitlab.Thrown.

Lemma fire_consistent e st st' :
  consistent st -> fire toolRegistry handleApiError e st = Some st' -> consistent st'.
Proof.
  intros Hc Hf. destruct e as [m h sdk| |t r|t|t|rq ax]; simpl in Hf.
  - injection Hf as <-. destruct Hc as [Ha Hb].
    destruct (mcp_keeps_table m h sdk st) as (Ht & Hs & _ & Hn).
    split; rewrite ?Ht, ?Hs; [exact Ha|].
    intros t id H. destruct (Hb t id H) as [H1 H2]. split; [lia|exact H2].
  - injection Hf as <-. exact Hc.
  - destruct (bool_decide (t < constructed st)%nat) eqn:Hlt; [|discriminate].
    destruct (isRandom36 r) eqn:Hr; [|discriminate]. simpl in Hf.
    destruct (sessionIdOf st !! t) eqn:Hnone; [discriminate|].
    injection Hf as <-. apply bool_decide_eq_true in Hlt.
    destruct Hc as [Ha Hb]. pose proof (generated_base36 r Hr) as Hb36.
    set (id := sessionIdGenerator r) in *.
    assert (Hb' : forall t0 id0, <[t:=id]> (sessionIdOf st) !! t0 = Some id0 ->
                     (t0 < constructed st)%nat /\ allBase36 id0 = true).
    { intros t0 id0 H. destruct (decide (t = t0)) as [->|Hne].
      - rewrite lookup_insert_eq in H. injection H as <-. auto.
      - rewrite lookup_insert_ne in H by exact Hne. apply Hb, H. }
    assert (Ha' : forall k t0, transports st !! k = Some t0 ->
                     <[t:=id]> (sessionIdOf st) !! t0 = Some k /\ k <> "").
    { intros k t0 H. destruct (Ha k t0 H) as [H1 H2]. split; [|exact H2].
      rewrite lookup_insert_ne; [exact H1|]. intros ->. congruence. }
    unfold initialize. destruct (String.eqb id "") eqn:Eid; simpl.
    + split; simpl; assumption.
    + split; simpl; [|exact Hb'].
      intros k t0 H. destruct (decide (id = k)) as [<-|Hne].
      * rewrite lookup_insert_eq in H. injection H as <-.
        rewrite lookup_insert_eq. split; [reflexivity|].
        apply String.eqb_neq, Eid.
      * rewrite lookup_insert_ne in H by exact Hne. apply Ha', H.
  - destruct (sessionIdOf st !! t); [|discriminate]. injection Hf as <-.
    apply consistent_delete, Hc.
  - destruct (bool_decide _); [|discriminate]. injection Hf as <-.
    unfold onclose. destruct (sessionIdOf st !! t); [|exact Hc].
    destruct (negb _); [|exact Hc]. apply consistent_delete, Hc.
  - injection Hf as <-. exact Hc.
Qed.

Lemma reachable_consistent st :
  reachable toolRegistry handleApiError st -> consistent st.
Proof.
  induction 1 as [|st e st' _ IH Hf]; [apply consistent_initial|].
  eapply fire_consistent; eassumption.
Qed.

(** The table is only ever assigned under identifiers made of base-36
    digits: never under [__proto__], which would replace its prototype. *)
Lemma live_identifier_base36 st k t :
  reachable toolRegistry handleApiError st ->
  transports st !! k = Some t ->
  allBase36 k = true /\ k <> "__proto__" /\ k <> "".
Proof.
  intros Hr Hk. destruct (reachable_consistent st Hr) as [Ha Hb].
  destruct (Ha k t Hk) as [Hs Hne]. destruct (Hb t k Hs) as [_ H36].
  split; [exact H36|]. split; [|exact Hne]. intros ->. discriminate H36.
Qed.

Lemma fire_registers_only_on_initialize e st st' k t :
  fire toolRegistry handleApiError e st = Some st' ->
  (forall t' r, e <> Initialized t' r) ->
  transports st' !! k = Some t -> transports st !! k = Some t.
Proof.
  intros Hf Hne H. destruct e as [m h sdk| |t' r|t'|t'|rq ax]; simpl in Hf.
  - injection Hf as <-.
    destruct (mcp_keeps_table m h sdk st) as (Ht & _). rewrite Ht in H. exact H.
  - injection Hf as <-. exact H.
  - exfalso. eapply Hne. reflexivity.
  - destruct (sessionIdOf st !! t'); [|discriminate]. injection Hf as <-.
    simpl in H. apply lookup_delete_Some in H as [_ H]. exact H.
  - destruct (bool_decide _); [|discriminate]. injection Hf as <-.
    unfold onclose in H. destruct (sessionIdOf st !! t'); [|exact H].
    destruct (negb _); [|exact H].
    simpl in H. apply lookup_delete_Some in H as [_ H]. exact H.
  - injection Hf as <-. exact H.
Qed.





(** An identifier that is absent stays absent until a handshake draws it. *)
Lemma fire_keeps_absent e st st' k :
  fire toolRegistry handleApiError e st = Some st' ->
  (forall t r, e = Initialized t r -> sessionIdGenerator r <> k) ->
  transports st !! k = None ->
  transports st' !! k = None.
Proof.
  intros Hf Hne Hk.
  destruct (transports st' !! k) as [t'|] eqn:E; [|reflexivity].
  destruct e as [m h sdk| |t r|t|t|rq ax];
    try (rewrite <- Hk; symmetry;
         refine (fire_registers_only_on_initialize _ st st' k t' Hf _ E);
         intros ? ?; discriminate).
  simpl in Hf.
  destruct (_ && _); [|discriminate].
  destruct (sessionIdOf st !! t); [discriminate|]. injection Hf as <-.
  unfold initialize in E. destruct (negb _); simpl in E.
  - rewrite lookup_insert_ne in E by (apply (Hne t r eq_refl)). congruence.
  - congruence.
Qed.

Lemma run_keeps_absent events st st' k :
  run toolRegistry handleApiError events st = Some st' ->
  (forall t r, In (Initialized t r) events -> sessionIdGenerator r <> k) ->
  transports st !! k = None ->
  transports st' !! k = None.
Proof.
  revert st. induction events as [|e rest IH]; intros st Hrun Hne Hk; simpl in Hrun.
  - injection Hrun as <-. exact Hk.
  - destruct (fire toolRegistry handleApiError e st) as [st1|] eqn:Hf; [|discriminate].
    apply (IH st1 Hrun).
    + intros t r Hin. apply (Hne t r). right. exact Hin.
    + apply (fire_keeps_absent e st st1 k Hf); [|exact Hk].
      intros t r ->. apply (Hne t r). left. reflexivity.
Qed.

Lemma run_reachable events st st' :
  reachable toolRegistry handleApiError st ->
  run toolRegistry handleApiError events st = Some st' ->
  reachable toolRegistry handleApiError st'.
Proof.
  revert st. induction events as [|e rest IH]; intros st Hr Hrun; simpl in Hrun.
  - injection Hrun as <-. exact Hr.
  - destruct (fire toolRegistry handleApiError e st) as [st1|] eqn:Hf; [|discriminate].
    apply (IH st1); [|exact Hrun]. apply (reachable_fire _ _ st e); assumption.
Qed.

(** C2 (amended): closing an active session, by a DELETE bearing its
    identifier or by the transport closing on its own, removes the
    identifier from the table; the two closures, alone or both in either
    order with nothing in between, lead to the same table, one entry
    smaller.  From then on, until a transport draws the same identifier on
    a later handshake, the identifier stays absent and every request
    bearing it is turned away: by the body parser if it refuses the body,
    else with 400 "Invalid session", or with the 500 of the route's catch
    when the identifier is a name the table object inherits.

    For a live entry [k -> t] of a reachable state: a DELETE bearing [k] is
    handed to [t], and with the transport reporting the session closed and
    closing, the exchange ends in [closed], the table without [k] and
    nothing else changed; so do [onsessionclosed], [onclose], and both in
    either order.  After any events from [closed] among which no handshake
    draws [k], the table has no [k] and an exchange bearing [k] changes
    nothing. *)
Theorem closure_removes_once st k t :
  reachable toolRegistry handleApiError st ->
  transports st !! k = Some t ->
  let closed := withTransports (fun tbl => delete k tbl) st in
  (forall sdk, handleThrows sdk = false ->
     exchange Next DELETE (Some k) sdk [SessionClose; Close] st = (ByRoute (Handled t), closed))
  /\ onsessionclosed k st = closed
  /\ onclose t st = closed
  /\ onclose t (onsessionclosed k st) = closed
  /\ onsessionclosed k (onclose t st) = closed
  /\ transports closed !! k = None
  /\ (forall k', k' <> k -> transports closed !! k' = transports st !! k')
  /\ S (size (transports closed)) = size (transports st)
  /\ (forall events st',
        (forall t' r, In (Initialized t' r) events -> sessionIdGenerator r <> k) ->
        run toolRegistry handleApiError events closed = Some st' ->
        transports st' !! k = None
        /\ forall parser m sdk callbacks,
             exchange parser m (Some k) sdk callbacks st'
             = (match parser with
                | Next => ByRoute (if inherited k then caught m else Json 400 invalidSession)
                | Refuse status => ByParser status
                end, st')).
Proof.
  intros Hr Hk closed.
  destruct (reachable_consistent st Hr) as [Ha _].
  destruct (Ha k t Hk) as [Hsid Hne].
  assert (Hclose : onclose t st = closed).
  { unfold onclose. rewrite Hsid, (nonempty_eqb _ Hne). reflexivity. }
  assert (Hidem : withTransports (fun tbl => delete k tbl) closed = closed).
  { unfold closed, withTransports. simpl. f_equal. apply delete_delete_eq. }
  assert (Hboth : onclose t (onsessionclosed k st) = closed).
  { unfold onclose. change (sessionIdOf (onsessionclosed k st)) with (sessionIdOf st).
    rewrite Hsid, (nonempty_eqb _ Hne). exact Hidem. }
  split; [|split; [|split; [|split; [|split; [|split; [|split; [|split]]]]]]].
  - intros sdk Hsdk. unfold exchange. simpl. unfold getOrDelete. simpl.
    rewrite (getProp_own _ _ _ Hk). simpl. rewrite Hsdk.
    unfold during. simpl. rewrite Hsid.
    change (sessionIdOf (onsessionclosed k st)) with (sessionIdOf st).
    f_equal. exact Hboth.
  - reflexivity.
  - exact Hclose.
  - exact Hboth.
  - rewrite Hclose. exact Hidem.
  - simpl. apply lookup_delete_eq.
  - intros k' Hk'. simpl. apply lookup_delete_ne. congruence.
  - simpl. rewrite map_size_delete, Hk.
    assert (size (transports st) <> 0%nat).
    { intros H0. apply map_size_empty_inv in H0. rewrite H0, lookup_empty in Hk. discriminate. }
    lia.
  - intros events st' Hevents Hrun.
    assert (Habsent : transports st' !! k = None).
    { apply (run_keeps_absent events closed st' k Hrun Hevents).
      simpl. apply lookup_delete_eq. }
    split; [exact Habsent|].
    intros parser m sdk callbacks. destruct (inherited k) eqn:Hinh.
    + destruct parser as [|status]; [|reflexivity].
      apply exchange_inherited; [exact Hne|].
      unfold getProp. rewrite Habsent, Hinh. reflexivity.
    + apply exchange_missing; [intros _; exact Hne|].
      apply getProp_missing; assumption.
Qed.

(** C3 (amended): a POST without a session header whose body the body
    parser accepts constructs a new transport object, and the route itself
    registers nothing; a POST whose body is refused constructs nothing.
    The identifier the transport draws from [sessionIdGenerator] is not
    checked against the table; it resolves only once the transport has
    reported the handshake through [onsessioninitialized], which it does
    while it handles the request, and then to the new transport, whatever
    the table held under it; no other event adds an entry. *)
Theorem session_registered_on_handshake st sdk :
  reachable toolRegistry handleApiError st ->
  let t := constructed st in
  let st1 := snd (exchange Next POST None sdk [] st) in
  (forall status callbacks,
     exchange (Refuse status) POST None sdk callbacks st = (ByParser status, st))
  /\ constructed st1 = S t
  /\ (forall k, transports st !! k <> Some t)
  /\ sessionIdOf st1 !! t = None
  /\ transports st1 = transports st
  /\ (forall id,
        transports (onsessioninitialized t id st1) !! id = Some t
        /\ forall k, k <> id ->
             transports (onsessioninitialized t id st1) !! k = transports st !! k)
  /\ (forall random36,
        isRandom36 random36 = true ->
        connectThrows sdk = false ->
        let id := sessionIdGenerator random36 in
        let st2 := snd (exchange Next POST None sdk [Initialize random36] st) in
        sessionIdOf st2 !! t = Some id
        /\ (id <> "" -> transports st2 !! id = Some t)
        /\ (id = "" -> transports st2 = transports st)
        /\ forall k, k <> id -> transports st2 !! k = transports st !! k)
  /\ (forall e st2 k t', fire toolRegistry handleApiError e st1 = Some st2 ->
        (forall t0 r, e <> Initialized t0 r) ->
        transports st2 !! k = Some t' -> transports st !! k = Some t').
Proof.
  intros Hr t st1.
  destruct (reachable_consistent st Hr) as [Ha Hb].
  assert (Hpost : snd (post None sdk st)
                  = {| transports := transports st; sessionIdOf := sessionIdOf st;
                       constructed := S (constructed st); gitlab := gitlab st |}).
  { unfold post. simpl. destruct (connectThrows sdk); reflexivity. }
  assert (Hst1 : st1 = {| transports := transports st; sessionIdOf := sessionIdOf st;
                          constructed := S (constructed st); gitlab := gitlab st |}).
  { unfold st1, exchange. simpl. rewrite <- Hpost.
    destruct (post None sdk st) as [out s1]. simpl.
    destruct (connectThrows sdk); reflexivity. }
  assert (Hfresh : sessionIdOf st !! t = None).
  { destruct (sessionIdOf st !! t) eqn:E; [|reflexivity].
    destruct (Hb t s E) as [Hlt _]. unfold t in Hlt. lia. }
  assert (Hst2 : forall random36,
             isRandom36 random36 = true -> connectThrows sdk = false ->
             snd (exchange Next POST None sdk [Initialize random36] st)
             = initialize t (sessionIdGenerator random36)
                 {| transports := transports st; sessionIdOf := sessionIdOf st;
                    constructed := S (constructed st); gitlab := gitlab st |}).
  { intros random36 Hrandom Hconnect. unfold exchange. simpl. rewrite <- Hpost.
    destruct (post None sdk st) as [out s1] eqn:Ep. simpl in *. rewrite Hconnect.
    unfold during. simpl. rewrite Hrandom, Hpost. simpl. fold t. rewrite Hfresh.
    reflexivity. }
  clearbody st1. subst st1.
  split; [reflexivity|].
  split; [reflexivity|]. split.
  { intros k Hk. destruct (Ha k t Hk) as [Hs _]. congruence. }
  split; [exact Hfresh|]. split; [reflexivity|]. split.
  { intros id. split; [apply lookup_insert_eq|].
    intros k Hk. apply lookup_insert_ne. congruence. }
  split.
  { intros random36 Hrandom Hconnect. cbv zeta.
    rewrite (Hst2 random36 Hrandom Hconnect). unfold initialize.
    destruct (String.eqb (sessionIdGenerator random36) "") eqn:Eid; simpl.
    - apply String.eqb_eq in Eid.
      split; [apply lookup_insert_eq|]. split; [intros H; contradiction|].
      split; [reflexivity|]. reflexivity.
    - apply String.eqb_neq in Eid.
      split; [apply lookup_insert_eq|]. split; [intros _; apply lookup_insert_eq|].
      split; [intros H; contradiction|].
      intros k Hk. apply lookup_insert_ne. congruence. }
  intros e st2 k t' Hf Hne Hl.
  apply (fire_registers_only_on_initialize e _ st2 k t' Hf Hne Hl).
Qed.

End Reachability.

(** C1 (amended): every request on /mcp (POST, GET or DELETE) whose body
    the body parser accepts and that bears a session identifier, on POST a
    non-empty one, which resolves to nothing in the session table, neither
    a live entry nor a name the table object inherits, is answered 400
    with the body
    {"jsonrpc":"2.0","error":{"code":-32000,"message":"Invalid session"},"id":null};
    a body the parser refuses is answered by the parser; either way the
    state, the session table included, is what it was.  A POST whose
    header is present but empty is handled as a POST without it. *)
Theorem unknown_session_rejected (parser : BodyParser) (m : Method) (sid : string)
    (sdk : Sdk) (callbacks : list Callback) (st : State) :
  (m = POST -> sid <> "") ->
  transports st !! sid = None ->
  inherited sid = false ->
  exchange parser m (Some sid) sdk callbacks st
  = (match parser with
     | Next => ByRoute (Json 400 invalidSession)
     | Refuse status => ByParser status
     end, st)
  /\ Json.stringify invalidSession = Some invalidSessionText
  /\ exchange parser POST (Some "") sdk callbacks st
     = exchange parser POST None sdk callbacks st.
Proof.
  intros Hne Hnone Hinh. split; [|split; reflexivity].
  apply exchange_missing; [exact Hne|]. apply getProp_missing; assumption.
Qed.

Lemma unknown_session_rejected_witness :
  (GET = POST -> "" <> "")
  /\ transports oneSession !! "" = None
  /\ inherited "" = false
  /\ exchange Next GET (Some "") quiet [Close] oneSession
     = (ByRoute (Json 400 invalidSession), oneSession)
  /\ Json.stringify invalidSession = Some invalidSessionText
  /\ exchange Next POST (Some "") quiet [Close] oneSession
     = exchange Next POST None quiet [Close] oneSession.
Proof.
  assert (H1 : GET = POST -> "" <> "") by discriminate.
  assert (H2 : transports oneSession !! "" = None) by reflexivity.
  assert (H3 : inherited "" = false) by reflexivity.
  split; [exact H1|]. split; [exact H2|]. split; [exact H3|].
  exact (unknown_session_rejected Next GET "" quiet [Close] oneSession H1 H2 H3).
Defined.

(** A POST whose session header is present but empty bears an identifier
    that is not in the table, and is not rejected: the route takes it for a
    missing header, constructs a transport and hands the request to it;
    the handshake the transport completes meanwhile registers a session. *)
Lemma empty_session_header_opens_session :
  transports initial !! "" = None
  /\ exchange Next POST (Some "") quiet [] initial
     = (ByRoute (Handled 0), snd (post None quiet initial))
  /\ constructed (snd (exchange Next POST (Some "") quiet [] initial)) = 1%nat
  /\ exchange Next POST (Some "") quiet [Initialize "0.o16a90be29"] initial
     = (ByRoute (Handled 0), oneSession)
  /\ transports oneSession !! "0be29" = Some 0%nat
  /\ exchange Next POST (Some "") quiet [] initial
     <> (ByRoute (Json 400 invalidSession), initial).
Proof. repeat split; try reflexivity. discriminate. Qed.

(** A name the table object inherits from Object.prototype is not in the
    table either; the value read under it has no [handleRequest], and the
    route's [catch] answers 500. *)
Example inherited_name_answers_500 :
  transports initial !! "constructor" = None
  /\ mcp POST (Some "constructor") quiet initial = (Json 500 internalError, initial)
  /\ mcp GET (Some "constructor") quiet initial = (Send 500 "Internal server error", initial)
  /\ mcp DELETE (Some "__proto__") quiet initial = (Send 500 "Internal server error", initial).
Proof. repeat split; reflexivity. Qed.

Lemma oneSession_reachable : reachable noTools identityFormatter oneSession.
Proof.
  apply (reachable_fire _ _ (snd (post None quiet initial)) (Initialized 0 "0.o16a90be29")).
  - apply (reachable_fire _ _ initial (Request POST None quiet)).
    + apply reachable_initial.
    + reflexivity.
  - reflexivity.
Qed.

Lemma closure_removes_once_witness :
  reachable noTools identityFormatter oneSession
  /\ transports oneSession !! "0be29" = Some 0%nat
  /\ exchange Next DELETE (Some "0be29") quiet [SessionClose; Close] oneSession
     = (ByRoute (Handled 0), withTransports (fun tbl => delete "0be29" tbl) oneSession)
  /\ onclose 0 (onsessionclosed "0be29" oneSession)
     = withTransports (fun tbl => delete "0be29" tbl) oneSession
  /\ exchange Next GET (Some "0be29") quiet []
       (withTransports (fun tbl => delete "0be29" tbl) oneSession)
     = (ByRoute (Json 400 invalidSession),
        withTransports (fun tbl => delete "0be29" tbl) oneSession).
Proof.
  assert (H1 : transports oneSession !! "0be29" = Some 0%nat) by reflexivity.
  pose proof (closure_removes_once noTools identityFormatter oneSession "0be29" 0%nat
                oneSession_reachable H1) as (Hdelete & _ & _ & Hboth & _ & _ & _ & _ & Hlater).
  split; [apply oneSession_reachable|].
  split; [exact H1|]. split; [exact (Hdelete quiet eq_refl)|]. split; [exact Hboth|].
  refine (proj2 (Hlater [] _ _ eq_refl) Next GET quiet []).
  intros t' r [].
Defined.

(** A closed identifier can come back, and a closure can remove a session
    that is not its own.  With [0be29] closed by a DELETE, the transport of
    a later POST draws [0be29] again and requests bearing it are handled
    once more.  And when that handshake falls between the two closures of
    the first session, the first transport's [onclose] deletes the entry of
    the second. *)
Lemma closed_identifier_is_redrawn :
  reachable noTools identityFormatter oneSession
  /\ transports oneSession !! "0be29" = Some 0%nat
  /\ exchange Next DELETE (Some "0be29") quiet [SessionClose; Close] oneSession
     = (ByRoute (Handled 0), afterDelete)
  /\ transports afterDelete !! "0be29" = None
  /\ isRandom36 "0.o2fui0be29" = true
  /\ sessionIdGenerator "0.o2fui0be29" = "0be29"
  /\ exchange Next POST None quiet [Initialize "0.o2fui0be29"] afterDelete
     = (ByRoute (Handled 1), redrawn)
  /\ transports redrawn !! "0be29" = Some 1%nat
  /\ fst (exchange Next GET (Some "0be29") quiet [] redrawn) = ByRoute (Handled 1)
  /\ run noTools identityFormatter betweenClosures oneSession = Some raced
  /\ transports raced !! "0be29" = Some 1%nat
  /\ sessionIdOf raced !! 0%nat = Some "0be29"
  /\ transports (onclose 0 raced) !! "0be29" = None
  /\ fst (exchange Next GET (Some "0be29") quiet [] redrawn)
     <> ByRoute (Json 400 invalidSession).
Proof.
  split; [apply oneSession_reachable|].
  do 12 (split; [reflexivity|]).
  intros H. vm_compute in H. discriminate H.
Qed.

(** The identifier drawn for a new transport can be one that is live: with
    [0be29] live for transport 0, a second POST without a header constructs
    transport 1, whose generator returns [0be29] again when the random text
    ends alike; the handshake then replaces the live entry. *)
Lemma generated_identifier_collides :
  reachable noTools identityFormatter oneSession
  /\ isRandom36 "0.o2fui0be29" = true
  /\ fst (post None quiet oneSession) = Handled 1
  /\ transports (snd (post None quiet oneSession)) !! sessionIdGenerator "0.o2fui0be29"
     = Some 0%nat
  /\ transports (initialize 1 (sessionIdGenerator "0.o2fui0be29")
                   (snd (post None quiet oneSession))) !! "0be29"
     = Some 1%nat
  /\ size (transports (initialize 1 (sessionIdGenerator "0.o2fui0be29")
                         (snd (post None quiet oneSession)))) = 1%nat
  /\ exchange Next POST None quiet [Initialize "0.o2fui0be29"] oneSession
     = (ByRoute (Handled 1),
        initialize 1 (sessionIdGenerator "0.o2fui0be29") (snd (post None quiet oneSession))).
Proof.
  split; [apply oneSession_reachable|]. repeat split; reflexivity.
Qed.

Lemma session_registered_on_handshake_witness :
  reachable noTools identityFormatter oneSession
  /\ constructed (snd (exchange Next POST None quiet [] oneSession)) = 2%nat
  /\ transports (snd (exchange Next POST None quiet [] oneSession)) = transports oneSession
  /\ isRandom36 "0.ybyl1eb3xr" = true
  /\ connectThrows quiet = false
  /\ transports (snd (exchange Next POST None quiet [Initialize "0.ybyl1eb3xr"] oneSession))
       !! "eb3xr" = Some 1%nat.
Proof.
  pose proof (session_registered_on_handshake noTools identityFormatter oneSession quiet
                oneSession_reachable) as (_ & H1 & _ & _ & H2 & _ & H3 & _).
  split; [apply oneSession_reachable|].
  split; [exact H1|]. split; [exact H2|]. split; [reflexivity|]. split; [reflexivity|].
  refine (proj1 (proj2 (H3 "0.ybyl1eb3xr" eq_refl eq_refl)) _). discriminate.
Defined.

(** *** The health route *)

#[local] Set Warnings "-clear-no-such-hyp".







End HttpFacts.

(** ** The handlers beyond their first guard *)

Module ValidationFacts.

Import Js Gitlab Validation.

(** Case analysis on every truthiness and equality test a handler makes. *)
Ltac tests :=
  repeat match goal with
         | |- context [truthy (lookup ?k ?a)] => destruct (truthy (lookup k a)); simpl
         | |- context [truthy (prop ?v ?k)] => destruct (truthy (prop v k)); simpl
         | |- context [isStr ?v ?s] => destruct (isStr v s); simpl
         end.

Lemma read_prop v k :
  truthy v = true -> read v k = ret (prop v k).
Proof. destruct v; intros H; solve [discriminate H | reflexivity]. Qed.

Lemma accepts_required tool p k :
  accepts tool p = true -> In k (required tool) -> truthy (lookup k (args p)) = true.
Proof.
  unfold accepts. intros H Hin. apply andb_true_iff in H as [H _].
  rewrite forallb_forall in H. apply (H k Hin).
Qed.

Ltac tests_eqn :=
  repeat match goal with
         | |- context [truthy (lookup ?k ?a)] =>
             let E := fresh "E" in destruct (truthy (lookup k a)) eqn:E; simpl
         end.

(** Case analysis on every conversion a path makes. *)
Ltac paths :=
  repeat match goal with
         | |- context [convertible (lookup ?k ?a)] =>
             destruct (convertible (lookup k a)); simpl
         | |- context [malformed (lookup ?k ?a)] =>
             destruct (malformed (lookup k a)); simpl
         end.

(** With the path written, the request reaches the client. *)
Lemma request_runs c axios log :
  templateThrows (url c) = None ->
  request c axios log
  = match axios log c with
    | Response body => (Returned body, (log ++ [c])%list)
    | Rejected f => (Threw (Other f), (log ++ [c])%list)
    end.
Proof. intros H. unfold request. rewrite H. reflexivity. Qed.

(** The paths of the handlers, and when they can be written. *)
Lemma project_written v tail :
  encodes v = true ->
  templateThrows (project v ++ tail)%list = templateThrows tail.
Proof.
  unfold encodes. intros H. apply andb_true_iff in H as [H1 H2].
  simpl. rewrite H1. simpl. apply negb_true_iff in H2. rewrite H2. reflexivity.
Qed.

Lemma mergeRequest_written v iid tail :
  encodes v = true -> convertible iid = true ->
  templateThrows (mergeRequest v iid ++ tail)%list = templateThrows tail.
Proof.
  intros H1 H2. unfold mergeRequest. rewrite <- app_assoc.
  rewrite (project_written v _ H1). simpl. rewrite H2. reflexivity.
Qed.

Lemma simple_addressable p :
  addressable CreateMergeRequestDiscussionSimple p = true ->
  templateThrows (mergeRequest (lookup "project_id" (args p))
                    (lookup "merge_request_iid" (args p))) = None
  /\ templateThrows (mergeRequest (lookup "project_id" (args p))
                       (lookup "merge_request_iid" (args p)) ++ [Lit "/discussions"])%list
     = None.
Proof.
  unfold addressable. intros H. apply andb_true_iff in H as [H1 H2]. split.
  - rewrite <- (app_nil_r (mergeRequest _ _)). apply mergeRequest_written; assumption.
  - rewrite mergeRequest_written by assumption. reflexivity.
Qed.

(** X1: arguments that fail a guard end the handler in an invalid-params
    error and send nothing: so for a falsy required argument, for
    update_merge_request without title and description, for a position
    short of one of its five fields, and for a line_type other than "new"
    and "old". *)
Theorem rejected_arguments_send_nothing tool p axios log :
  accepts tool p = false ->
  exists message,
    handlerOf tool p axios log = (Threw (McpError InvalidParams message), log).
Proof.
  unfold accepts. intros H.
  destruct tool; simpl in H; simpl handlerOf;
    match goal with
    | |- exists _, ?h _ _ _ = _ => unfold h
    end;
    revert H; unfold positionFields; simpl forallb; tests_eqn; intros H;
    try discriminate H; try (eexists; reflexivity).
  - (* create_merge_request_discussion *)
    rewrite !(read_prop _ _ E2). unfold bind, ret. simpl.
    revert H. tests; intros H; try discriminate H; eexists; reflexivity.
  - (* create_merge_request_discussion_simple *)
    revert H. tests; intros H; try discriminate H; eexists; reflexivity.
Qed.

Ltac replies :=
  repeat match goal with
         | |- context [match ?axios ?l ?c with Response _ => _ | Rejected _ => _ end] =>
             destruct (axios l c); simpl
         | |- context [match field ?v ?k with Some _ => _ | None => _ end] =>
             destruct (field v k); simpl
         | |- context [truthy ?v] => destruct (truthy v); simpl
         end.

Ltac leaf :=
  eexists; eexists;
  (split; [simpl; rewrite <- ?app_assoc; reflexivity|]);
  (split; [simpl; lia|]);
  (split; [first [intros _; reflexivity | intros Hc; exfalso; apply Hc; reflexivity]|]);
  first [intros _; eexists; reflexivity | intros Hc; exfalso; apply Hc; reflexivity].

(** X2: arguments that pass the guards make the handler send a request
    exactly when the arguments it writes into the path can be written
    there: then one request, or for create_merge_request_discussion_simple
    at most two, and every handler but list_projects addresses its first
    request to /projects/<encoded project_id>; otherwise the handler throws
    the TypeError or URIError of the conversion and sends nothing. *)
Theorem accepted_arguments_send_request tool p axios log :
  accepts tool p = true ->
  (addressable tool p = true ->
   exists call rest,
     snd (handlerOf tool p axios log) = (log ++ call :: rest)%list
     /\ (length rest <= 1)%nat
     /\ (tool <> CreateMergeRequestDiscussionSimple -> rest = [])
     /\ (tool <> ListProjects ->
         exists tail,
           url call = Lit "/projects/" :: Encoded (lookup "project_id" (args p)) :: tail))
  /\ (addressable tool p = false ->
      exists failure,
        handlerOf tool p axios log = (Threw (Other failure), log)
        /\ (failure = TypeError \/ failure = URIError)).
Proof.
  unfold accepts. intros H. split; intros Ha.
  - destruct tool; simpl in H; simpl handlerOf;
      match goal with
      | |- exists _ _, snd (?h _ _ _) = _ /\ _ => unfold h
      end;
      revert H; unfold positionFields; simpl forallb; tests_eqn; intros H;
      try discriminate H.
    all: try (unfold bind, request, ret; simpl;
              revert Ha; unfold addressable, encodes; paths; intros Ha;
              try discriminate Ha; replies; leaf).
    + (* create_merge_request_discussion *)
      rewrite !(read_prop _ _ E2). unfold bind, ret. simpl.
      revert H. tests; intros H; try discriminate H.
      unfold request. simpl.
      revert Ha; unfold addressable, encodes; paths; intros Ha;
        try discriminate Ha; replies; leaf.
    + (* create_merge_request_discussion_simple *)
      revert H. tests; intros H; try discriminate H;
        unfold bind, request, read, ret, throw; simpl;
        revert Ha; unfold addressable, encodes; paths; intros Ha;
        try discriminate Ha; replies; leaf.
  - destruct tool; simpl in H; simpl handlerOf;
      match goal with
      | |- exists _, ?h _ _ _ = _ /\ _ => unfold h
      end;
      revert H; unfold positionFields; simpl forallb; tests_eqn; intros H;
      try discriminate H.
    all: try (unfold bind, request, ret; simpl;
              revert Ha; unfold addressable, encodes; paths; intros Ha;
              try discriminate Ha; eexists; (split; [reflexivity|]); auto).
    + rewrite !(read_prop _ _ E2). unfold bind, ret. simpl.
      revert H. tests; intros H; try discriminate H.
      unfold request. simpl.
      revert Ha; unfold addressable, encodes; paths; intros Ha;
        try discriminate Ha; eexists; (split; [reflexivity|]); auto.
    + revert H. tests; intros H; try discriminate H;
        unfold bind, request, read, ret, throw; simpl;
        revert Ha; unfold addressable, encodes; paths; intros Ha;
        try discriminate Ha; eexists; (split; [reflexivity|]); auto.
Qed.

(** X3: when GitLab refuses the request, a handler whose arguments pass
    and can be written into the path throws the client's failure as it is,
    after that one request; the dispatch hands the failure to the error
    formatter. *)
Theorem gitlab_failure_propagates (registry : gmap string ToolHandler) fmt
    tool p failure log :
  registry !! name p = Some (handlerOf tool) ->
  accepts tool p = true ->
  addressable tool p = true ->
  exists call,
    handlerOf tool p (failing failure) log = (Threw (Other failure), (log ++ [call])%list)
    /\ callTool registry fmt p (failing failure) log
       = (Threw (fmt (Other failure) "Error executing GitLab operation"),
          (log ++ [call])%list).
Proof.
  intros Hreg H Ha.
  assert (Hh : exists call,
             handlerOf tool p (failing failure) log
             = (Threw (Other failure), (log ++ [call])%list)).
  { unfold accepts in H.
    destruct tool; simpl in H; simpl handlerOf;
      match goal with
      | |- exists _, ?h _ _ _ = _ => unfold h
      end;
      revert H; unfold positionFields; simpl forallb; tests_eqn; intros H;
      try discriminate H.
    all: try (unfold bind, request, ret; simpl;
              revert Ha; unfold addressable, encodes; paths; intros Ha;
              try discriminate Ha; eexists; reflexivity).
    - rewrite !(read_prop _ _ E2). unfold bind, ret. simpl.
      revert H. tests; intros H; try discriminate H.
      unfold request. simpl.
      revert Ha; unfold addressable, encodes; paths; intros Ha;
        try discriminate Ha; eexists; reflexivity.
    - revert H. tests; intros H; try discriminate H;
        unfold bind, request, read, ret, throw; simpl;
        revert Ha; unfold addressable, encodes; paths; intros Ha;
        try discriminate Ha; eexists; reflexivity. }
  destruct Hh as (call & Hh). exists call. split; [exact Hh|].
  unfold callTool, dispatch. rewrite Hreg, Hh. reflexivity.
Qed.

Lemma gitlab_failure_propagates_witness :
  ({[ "get_project" := getProject ]} : gmap string ToolHandler) !! "get_project"
  = Some getProject
  /\ accepts GetProject project42 = true
  /\ addressable GetProject project42 = true
  /\ exists call,
       getProject project42 (failing NetworkFailure) [] = (Threw (Other NetworkFailure), [call])
       /\ callTool {[ "get_project" := getProject ]} wrapError project42
            (failing NetworkFailure) []
          = (Threw (wrapError (Other NetworkFailure) "Error executing GitLab operation"),
             [call]).
Proof.
  assert (H1 : ({[ "get_project" := getProject ]} : gmap string ToolHandler)
               !! name project42 = Some (handlerOf GetProject)) by reflexivity.
  assert (H2 : accepts GetProject project42 = true) by reflexivity.
  assert (H3 : addressable GetProject project42 = true) by reflexivity.
  split; [exact H1|]. split; [exact H2|]. split; [exact H3|].
  exact (gitlab_failure_propagates {[ "get_project" := getProject ]} wrapError GetProject
           project42 NetworkFailure [] H1 H2 H3).
Defined.

(** X4: when GitLab answers, every handler that sends one request, its
    arguments passing and written into the path, returns the formatted
    body of the answer after exactly that request.  The request is a GET
    for the tools that read; only the two note tools and the discussion
    tool send a POST, only update_merge_request a PUT. *)
Theorem answered_request_is_returned tool p body log :
  tool <> CreateMergeRequestDiscussionSimple ->
  accepts tool p = true ->
  addressable tool p = true ->
  exists call,
    handlerOf tool p (answering body) log
    = (Returned (formatResponse body), (log ++ [call])%list)
    /\ verb call
       = match tool with
         | CreateMergeRequestNote
         | CreateMergeRequestNoteInternal
         | CreateMergeRequestDiscussion => HttpPost
         | UpdateMergeRequest => HttpPut
         | _ => HttpGet
         end.
Proof.
  intros Hne H Ha.
  unfold accepts in H.
  destruct tool; simpl in H; simpl handlerOf;
    match goal with
    | |- exists _, ?h _ _ _ = _ /\ _ => unfold h
    end;
    revert H; unfold positionFields; simpl forallb; tests_eqn; intros H;
    try discriminate H.
  all: try (unfold bind, request, ret; simpl;
            revert Ha; unfold addressable, encodes; paths; intros Ha;
            try discriminate Ha; eexists; split; reflexivity).
  - rewrite !(read_prop _ _ E2). unfold bind, ret. simpl.
    revert H. tests; intros H; try discriminate H.
    unfold request. simpl.
    revert Ha; unfold addressable, encodes; paths; intros Ha;
      try discriminate Ha; eexists; split; reflexivity.
  - exfalso. apply Hne. reflexivity.
Qed.

Lemma answeringTwice_first log first second c :
  answeringTwice log first second log c = Response first.
Proof. unfold answeringTwice. rewrite Nat.eqb_refl. reflexivity. Qed.

Lemma answeringTwice_second log first second c1 c :
  answeringTwice log first second (log ++ [c1])%list c = Response second.
Proof.
  unfold answeringTwice.
  assert (H : Nat.eqb (length (log ++ [c1])%list) (length log) = false).
  { apply Nat.eqb_neq. rewrite length_app. simpl. lia. }
  rewrite H. reflexivity.
Qed.

(** X5: create_merge_request_discussion_simple, its arguments passing
    and written into the path, and the merge request carrying diff_refs,
    sends two requests in order:
    GET of the merge request, then POST to its discussions with the body
    and a position made of the three commit ids of diff_refs, the type
    "text", the file path as both new and old path, and the line number on
    the side line_type names, null on the other; it returns the envelope
    of the second answer. *)
Theorem simple_discussion_two_requests p mr refs body log :
  accepts CreateMergeRequestDiscussionSimple p = true ->
  addressable CreateMergeRequestDiscussionSimple p = true ->
  field mr "diff_refs" = Some refs ->
  truthy refs = true ->
  exists position,
    createMergeRequestDiscussionSimple p (answeringTwice log mr body) log
    = (Returned (formatResponse body),
       (log ++ [ {| verb := HttpGet;
                    url := mergeRequest (lookup "project_id" (args p))
                             (lookup "merge_request_iid" (args p));
                    params := []; data := [] |};
                 {| verb := HttpPost;
                    url := (mergeRequest (lookup "project_id" (args p))
                              (lookup "merge_request_iid" (args p))
                            ++ [Lit "/discussions"])%list;
                    params := [];
                    data := [ ("body", lookup "body" (args p));
                              ("position", VObj position) ] |} ])%list)
    /\ lookup "base_sha" position = prop refs "base_sha"
    /\ lookup "start_sha" position = prop refs "start_sha"
    /\ lookup "head_sha" position = prop refs "head_sha"
    /\ lookup "position_type" position = VStr "text"
    /\ lookup "new_path" position = lookup "file_path" (args p)
    /\ lookup "old_path" position = lookup "file_path" (args p)
    /\ (lookup "line_type" (args p) = VStr "new" ->
        lookup "new_line" position = lookup "line_number" (args p)
        /\ lookup "old_line" position = VNull)
    /\ (lookup "line_type" (args p) = VStr "old" ->
        lookup "old_line" position = lookup "line_number" (args p)
        /\ lookup "new_line" position = VNull).
Proof.
  intros H Ha Hfield Hrefs. unfold accepts in H. simpl in H.
  destruct (simple_addressable p Ha) as [Hget Hpost].
  unfold createMergeRequestDiscussionSimple.
  revert H; tests_eqn; intros H; try discriminate H.
  assert (Hguard : negb (isStr (lookup "line_type" (args p)) "new")
                   && negb (isStr (lookup "line_type" (args p)) "old") = false).
  { destruct (isStr _ "new"), (isStr _ "old"); solve [reflexivity | discriminate H]. }
  rewrite Hguard.
  unfold bind at 1. rewrite request_runs by exact Hget. rewrite answeringTwice_first.
  unfold bind at 1. unfold read at 1. rewrite Hfield. unfold ret at 1.
  rewrite Hrefs. simpl negb. cbv iota.
  rewrite !(read_prop _ _ Hrefs).
  unfold bind, ret. cbn [negb]. cbv beta iota.
  rewrite request_runs by exact Hpost. rewrite answeringTwice_second.
  eexists. split; [rewrite <- app_assoc; reflexivity|].
  do 6 (split; [reflexivity|]).
  split; intros Hlt; rewrite Hlt; simpl; split; reflexivity.
Qed.

Lemma simple_discussion_two_requests_witness :
  accepts CreateMergeRequestDiscussionSimple lineSeven = true
  /\ addressable CreateMergeRequestDiscussionSimple lineSeven = true
  /\ field sampleMergeRequest "diff_refs"
     = Some (VObj [("base_sha", VStr "b0"); ("start_sha", VStr "s0"); ("head_sha", VStr "h0")])
  /\ exists position,
       fst (createMergeRequestDiscussionSimple lineSeven
              (answeringTwice [] sampleMergeRequest (VObj [("id", VStr "d1")])) [])
       = Returned (formatResponse (VObj [("id", VStr "d1")]))
       /\ lookup "head_sha" position = VStr "h0"
       /\ lookup "new_line" position = VNum 7
       /\ lookup "old_line" position = VNull.
Proof.
  assert (H1 : accepts CreateMergeRequestDiscussionSimple lineSeven = true) by reflexivity.
  assert (H2 : field sampleMergeRequest "diff_refs"
               = Some (VObj [("base_sha", VStr "b0"); ("start_sha", VStr "s0");
                             ("head_sha", VStr "h0")])) by reflexivity.
  assert (H3 : addressable CreateMergeRequestDiscussionSimple lineSeven = true)
    by reflexivity.
  split; [exact H1|]. split; [exact H3|]. split; [exact H2|].
  destruct (simple_discussion_two_requests lineSeven sampleMergeRequest _
              (VObj [("id", VStr "d1")]) [] H1 H3 H2 eq_refl)
    as (position & Hrun & _ & _ & Hhead & _ & _ & _ & Hnew & _).
  exists position. split; [rewrite Hrun; reflexivity|].
  split; [exact Hhead|]. exact (Hnew eq_refl).
Defined.

(** X6: create_merge_request_discussion_simple, its arguments passing
    and written into the path, sends no POST when the merge request it
    fetched has no diff_refs: a missing, null or otherwise
    falsy diff_refs ends in an internal-error protocol error, a null or
    undefined response body in the TypeError of the read; either way after
    the one GET. *)
Theorem simple_discussion_without_diff_refs p mr log :
  accepts CreateMergeRequestDiscussionSimple p = true ->
  addressable CreateMergeRequestDiscussionSimple p = true ->
  truthy (prop mr "diff_refs") = false ->
  exists get,
    verb get = HttpGet
    /\ snd (createMergeRequestDiscussionSimple p (answering mr) log) = (log ++ [get])%list
    /\ fst (createMergeRequestDiscussionSimple p (answering mr) log)
       = match field mr "diff_refs" with
         | Some _ =>
             Threw (McpError InternalError
                      "Could not retrieve diff_refs from merge request. The MR may not have any commits yet.")
         | None => Threw (Other TypeError)
         end.
Proof.
  intros H Ha Hrefs.
  destruct (simple_addressable p Ha) as [Hget _].
  set (get := {| verb := HttpGet;
                 url := mergeRequest (lookup "project_id" (args p))
                          (lookup "merge_request_iid" (args p));
                 params := []; data := [] |}).
  assert (Hrun : createMergeRequestDiscussionSimple p (answering mr) log
                 = (match field mr "diff_refs" with
                    | Some _ =>
                        Threw (McpError InternalError
                                 "Could not retrieve diff_refs from merge request. The MR may not have any commits yet.")
                    | None => Threw (Other TypeError)
                    end, (log ++ [get])%list)).
  { unfold accepts in H. simpl in H.
    unfold createMergeRequestDiscussionSimple.
    revert H; tests_eqn; intros H; try discriminate H.
    assert (Hguard : negb (isStr (lookup "line_type" (args p)) "new")
                     && negb (isStr (lookup "line_type" (args p)) "old") = false).
    { destruct (isStr _ "new"), (isStr _ "old"); solve [reflexivity | discriminate H]. }
    rewrite Hguard.
    unfold bind at 1. rewrite request_runs by exact Hget. unfold answering at 1.
    unfold bind at 1. unfold read at 1. unfold prop in Hrefs.
    destruct (field mr "diff_refs") as [refs|].
    - unfold ret at 1. rewrite Hrefs. reflexivity.
    - reflexivity. }
  exists get. rewrite Hrun. split; [reflexivity|]. split; reflexivity.
Qed.

Lemma simple_discussion_without_diff_refs_witness :
  accepts CreateMergeRequestDiscussionSimple lineSeven = true
  /\ addressable CreateMergeRequestDiscussionSimple lineSeven = true
  /\ truthy (prop (VObj [("iid", VNum 12); ("diff_refs", VNull)]) "diff_refs") = false
  /\ createMergeRequestDiscussionSimple lineSeven
       (answering (VObj [("iid", VNum 12); ("diff_refs", VNull)])) []
     = (Threw (McpError InternalError
                 "Could not retrieve diff_refs from merge request. The MR may not have any commits yet."),
        [ {| verb := HttpGet;
             url := mergeRequest (VStr "group/app") (VNum 12);
             params := []; data := [] |} ]).
Proof.
  assert (H1 : accepts CreateMergeRequestDiscussionSimple lineSeven = true) by reflexivity.
  assert (H2 : truthy (prop (VObj [("iid", VNum 12); ("diff_refs", VNull)]) "diff_refs")
               = false) by reflexivity.
  assert (H3 : addressable CreateMergeRequestDiscussionSimple lineSeven = true)
    by reflexivity.
  split; [exact H1|]. split; [exact H3|]. split; [exact H2|].
  destruct (simple_discussion_without_diff_refs lineSeven
              (VObj [("iid", VNum 12); ("diff_refs", VNull)]) [] H1 H3 H2)
    as (get & _ & _ & _).
  reflexivity.
Defined.

Lemma rejected_arguments_send_nothing_witness :
  accepts UpdateMergeRequest
    {| name := "update_merge_request";
       arguments := Some [("project_id", VNum 42); ("merge_request_iid", VNum 12);
                          ("title", VStr "")] |} = false
  /\ exists message,
       updateMergeRequest
         {| name := "update_merge_request";
            arguments := Some [("project_id", VNum 42); ("merge_request_iid", VNum 12);
                               ("title", VStr "")] |} noAxios []
       = (Threw (McpError InvalidParams message), []).
Proof.
  assert (H : accepts UpdateMergeRequest
                {| name := "update_merge_request";
                   arguments := Some [("project_id", VNum 42); ("merge_request_iid", VNum 12);
                                      ("title", VStr "")] |} = false) by reflexivity.
  split; [exact H|].
  exact (rejected_arguments_send_nothing UpdateMergeRequest _ noAxios [] H).
Defined.

Lemma accepted_arguments_send_request_witness :
  accepts GetProject project42 = true
  /\ addressable GetProject project42 = true
  /\ (exists call rest,
        snd (getProject project42 noAxios []) = (call :: rest)
        /\ (length rest <= 1)%nat
        /\ (GetProject <> CreateMergeRequestDiscussionSimple -> rest = [])
        /\ (GetProject <> ListProjects ->
            exists tail, url call = Lit "/projects/" :: Encoded (VNum 42) :: tail))
  /\ accepts GetMergeRequest unprintableIid = true
  /\ addressable GetMergeRequest unprintableIid = false
  /\ exists failure,
       getMergeRequest unprintableIid noAxios [] = (Threw (Other failure), [])
       /\ (failure = TypeError \/ failure = URIError).
Proof.
  assert (H1 : accepts GetProject project42 = true) by reflexivity.
  assert (H2 : addressable GetProject project42 = true) by reflexivity.
  assert (H3 : accepts GetMergeRequest unprintableIid = true) by reflexivity.
  assert (H4 : addressable GetMergeRequest unprintableIid = false) by reflexivity.
  split; [exact H1|]. split; [exact H2|].
  split; [exact (proj1 (accepted_arguments_send_request GetProject project42 noAxios [] H1) H2)|].
  split; [exact H3|]. split; [exact H4|].
  exact (proj2 (accepted_arguments_send_request GetMergeRequest unprintableIid noAxios [] H3) H4).
Defined.

Lemma answered_request_is_returned_witness :
  GetProject <> CreateMergeRequestDiscussionSimple
  /\ accepts GetProject project42 = true
  /\ addressable GetProject project42 = true
  /\ exists call,
       getProject project42 (answering sampleProject) []
       = (Returned (formatResponse sampleProject), [call])
       /\ verb call = HttpGet.
Proof.
  assert (H1 : GetProject <> CreateMergeRequestDiscussionSimple) by discriminate.
  assert (H2 : accepts GetProject project42 = true) by reflexivity.
  assert (H3 : addressable GetProject project42 = true) by reflexivity.
  split; [exact H1|]. split; [exact H2|]. split; [exact H3|].
  exact (answered_request_is_returned GetProject project42 sampleProject [] H1 H2 H3).
Defined.

Lemma lookup_assign_eq k v ps : lookup k (assign k v ps) = v.
Proof.
  induction ps as [|[k' v'] ps IH]; simpl.
  - rewrite String.eqb_refl. reflexivity.
  - destruct (String.eqb k k') eqn:E; simpl.
    + rewrite String.eqb_refl. reflexivity.
    + rewrite E. exact IH.
Qed.

Lemma lookup_assign_ne k k' v ps :
  k' <> k -> lookup k' (assign k v ps) = lookup k' ps.
Proof.
  intros Hne. induction ps as [|[k2 v2] ps IH]; simpl.
  - apply String.eqb_neq in Hne. rewrite Hne. reflexivity.
  - destruct (String.eqb k k2) eqn:E; simpl.
    + apply String.eqb_eq in E. subst k2.
      apply String.eqb_neq in Hne. rewrite Hne.
      apply JsFacts.lookup_remove_ne. apply String.eqb_neq, Hne.
    + destruct (String.eqb k' k2); [reflexivity|exact IH].
Qed.

(** X7: create_merge_request_discussion, its arguments passing and
    written into the path, sends the position it was given with
    position_type set to "text", whatever type the caller put there,
    and every other field as the caller gave it. *)
Theorem discussion_position_is_text p fields axios log :
  accepts CreateMergeRequestDiscussion p = true ->
  addressable CreateMergeRequestDiscussion p = true ->
  lookup "position" (args p) = VObj fields ->
  exists sent,
    snd (createMergeRequestDiscussion p axios log)
    = (log ++ [ {| verb := HttpPost;
                   url := (mergeRequest (lookup "project_id" (args p))
                             (lookup "merge_request_iid" (args p))
                           ++ [Lit "/discussions"])%list;
                   params := [];
                   data := [ ("body", lookup "body" (args p));
                             ("position", VObj sent) ] |} ])%list
    /\ lookup "position_type" sent = VStr "text"
    /\ forall k, k <> "position_type" -> lookup k sent = lookup k fields.
Proof.
  intros H Ha Hpos. unfold accepts in H. simpl in H. rewrite Hpos in H.
  unfold createMergeRequestDiscussion. rewrite Hpos.
  exists (assign "position_type" (VStr "text") fields).
  split; [|split; [apply lookup_assign_eq|intros k Hk; apply lookup_assign_ne, Hk]].
  revert H; unfold positionFields, prop; simpl; tests_eqn; intros H; try discriminate H;
    unfold bind, read, ret, request; simpl;
    revert H; tests; intros H; try discriminate H; try congruence;
    revert Ha; unfold addressable, encodes; paths; intros Ha; try discriminate Ha;
    destruct (axios log _); reflexivity.
Qed.

Lemma discussion_position_is_text_witness :
  accepts CreateMergeRequestDiscussion typedPosition = true
  /\ addressable CreateMergeRequestDiscussion typedPosition = true
  /\ exists sent,
       snd (createMergeRequestDiscussion typedPosition noAxios [])
       = [ {| verb := HttpPost;
              url := (mergeRequest (VNum 42) (VNum 12) ++ [Lit "/discussions"])%list;
              params := [];
              data := [("body", VStr "nit"); ("position", VObj sent)] |} ]
       /\ lookup "position_type" sent = VStr "text"
       /\ forall k, k <> "position_type" ->
            lookup k sent
            = lookup k [ ("position_type", VStr "image");
                         ("base_sha", VStr "b0");
                         ("start_sha", VStr "s0");
                         ("head_sha", VStr "h0");
                         ("new_path", VStr "a.ts");
                         ("old_path", VStr "a.ts");
                         ("new_line", VNum 3) ].
Proof.
  assert (H : accepts CreateMergeRequestDiscussion typedPosition = true) by reflexivity.
  assert (H' : addressable CreateMergeRequestDiscussion typedPosition = true) by reflexivity.
  split; [exact H|]. split; [exact H'|].
  exact (discussion_position_is_text typedPosition _ noAxios [] H H' eq_refl).
Defined.

(** X8: the flags are strict: list_projects sends owned and membership
    as true only when the argument is the boolean true and leaves them
    undefined otherwise (for 1, "true", "yes"); list_projects throws no
    protocol error of its own and always sends its one request;
    create_merge_request_note (internal), its arguments passing and
    written into the path, sends internal as the boolean that tells
    whether the argument is the boolean true. *)
Theorem flags_are_strict :
  (forall p axios log,
      exists call,
        snd (listProjects p axios log) = (log ++ [call])%list
        /\ verb call = HttpGet /\ url call = [Lit "/projects"]
        /\ lookup "owned" (params call)
           = (if isTrue (lookup "owned" (args p)) then VBool true else VUndefined)
        /\ lookup "membership" (params call)
           = (if isTrue (lookup "membership" (args p)) then VBool true else VUndefined)
        /\ lookup "search" (params call) = lookup "search" (args p)
        /\ forall code message,
             fst (listProjects p axios log) <> Threw (McpError code message))
  /\ (forall p axios log,
        accepts CreateMergeRequestNoteInternal p = true ->
        addressable CreateMergeRequestNoteInternal p = true ->
        exists call,
          snd (createMergeRequestNoteInternal p axios log) = (log ++ [call])%list
          /\ lookup "internal" (data call) = VBool (isTrue (lookup "internal" (args p)))
          /\ lookup "body" (data call) = lookup "body" (args p))
  /\ (forall v, v <> VBool true -> isTrue v = false).
Proof.
  split; [|split].
  - intros p axios log. unfold listProjects, bind, request.
    eexists. split; [destruct (axios log _); reflexivity|].
    do 5 (split; [reflexivity|]).
    intros code message. destruct (axios log _); discriminate.
  - intros p axios log H Ha. unfold accepts in H. simpl in H.
    unfold createMergeRequestNoteInternal.
    revert H; tests_eqn; intros H; try discriminate H.
    unfold bind, request. simpl.
    revert Ha; unfold addressable, encodes; paths; intros Ha; try discriminate Ha.
    eexists.
    split; [destruct (axios log _); reflexivity|]. split; reflexivity.
  - intros v Hv. destruct v as [| |[]| | | |]; try reflexivity. contradiction.
Qed.

Lemma flags_are_strict_witness :
  accepts CreateMergeRequestNoteInternal
    {| name := "create_merge_request_note_internal";
       arguments := Some [("project_id", VNum 42); ("merge_request_iid", VNum 12);
                          ("body", VStr "seen"); ("internal", VStr "true")] |} = true
  /\ addressable CreateMergeRequestNoteInternal
       {| name := "create_merge_request_note_internal";
          arguments := Some [("project_id", VNum 42); ("merge_request_iid", VNum 12);
                             ("body", VStr "seen"); ("internal", VStr "true")] |} = true
  /\ exists call,
       snd (createMergeRequestNoteInternal
              {| name := "create_merge_request_note_internal";
                 arguments := Some [("project_id", VNum 42); ("merge_request_iid", VNum 12);
                                    ("body", VStr "seen"); ("internal", VStr "true")] |}
              noAxios []) = [call]
       /\ lookup "internal" (data call) = VBool false
       /\ lookup "body" (data call) = VStr "seen".
Proof.
  assert (H : accepts CreateMergeRequestNoteInternal
                {| name := "create_merge_request_note_internal";
                   arguments := Some [("project_id", VNum 42); ("merge_request_iid", VNum 12);
                                      ("body", VStr "seen"); ("internal", VStr "true")] |}
              = true) by reflexivity.
  assert (H' : addressable CreateMergeRequestNoteInternal
                 {| name := "create_merge_request_note_internal";
                    arguments := Some [("project_id", VNum 42); ("merge_request_iid", VNum 12);
                                       ("body", VStr "seen"); ("internal", VStr "true")] |}
               = true) by reflexivity.
  split; [exact H|]. split; [exact H'|].
  exact (proj1 (proj2 flags_are_strict) _ noAxios [] H H').
Defined.

End ValidationFacts.

(** ** Encoded path segments *)

Module UriFacts.

Import Js Gitlab Validation Uri.

#[local] Arguments String.append !_ _ / : simpl nomatch.

Lemma count_append c a b : count c (a ++ b) = (count c a + count c b)%nat.
Proof.
  induction a as [|x a IH]; [reflexivity|]. simpl. rewrite IH. lia.
Qed.

Lemma upperHex_unreserved n : unreserved (upperHex n) = true.
Proof.
  destruct n as [|p]; [reflexivity|].
  do 5 (try reflexivity; destruct p as [p|p|]); reflexivity.
Qed.

Lemma encodeChar_safe c :
  Forall (fun x => unreserved x = true \/ x = "%"%char)
    (list_ascii_of_string (encodeChar c)).
Proof.
  unfold encodeChar. destruct (unreserved c) eqn:E; simpl.
  - constructor; [left; exact E|constructor].
  - constructor; [right; reflexivity|].
    constructor; [left; apply upperHex_unreserved|].
    constructor; [left; apply upperHex_unreserved|constructor].
Qed.

Lemma unescape_encodeChar c rest :
  unescapePercent (encodeChar c ++ rest)
  = match unescapePercent rest with
    | Some text => Some (String c text)
    | None => None
    end.
Proof. destruct c as [[] [] [] [] [] [] [] []]; reflexivity. Qed.

Lemma unescape_encode s : unescapePercent (encodeURIComponent s) = Some s.
Proof.
  induction s as [|c s IH]; [reflexivity|].
  change (encodeURIComponent (String c s)) with (encodeChar c ++ encodeURIComponent s).
  rewrite unescape_encodeChar, IH. reflexivity.
Qed.

Lemma encode_safe s :
  Forall (fun x => unreserved x = true \/ x = "%"%char)
    (list_ascii_of_string (encodeURIComponent s)).
Proof.
  induction s as [|c s IH]; [constructor|].
  change (encodeURIComponent (String c s)) with (encodeChar c ++ encodeURIComponent s).
  pose proof (encodeChar_safe c) as Hc.
  induction (encodeChar c) as [|x e IHe]; [exact IH|].
  simpl in *. inversion Hc; subst. constructor; [assumption|]. apply IHe. assumption.
Qed.

Lemma count_safe (c : ascii) s :
  unreserved c = false -> c <> "%"%char ->
  Forall (fun x => unreserved x = true \/ x = "%"%char) (list_ascii_of_string s) ->
  count c s = 0%nat.
Proof.
  intros Hu Hp. induction s as [|x s IH]; intros H; [reflexivity|].
  simpl in *. inversion H as [|? ? Hx Hs]; subst. rewrite (IH Hs).
  destruct (Ascii.eqb x c) eqn:E; [|reflexivity].
  apply Ascii.eqb_eq in E. subst x. destruct Hx as [Hx|Hx]; congruence.
Qed.

Lemma encode_unreserved s :
  Forall (fun x => unreserved x = true) (list_ascii_of_string s) ->
  encodeURIComponent s = s.
Proof.
  induction s as [|c s IH]; intros H; [reflexivity|].
  simpl in H. inversion H as [|? ? Hc Hs]; subst.
  simpl. unfold encodeChar. rewrite Hc. simpl. rewrite (IH Hs). reflexivity.
Qed.

(** X9: [encodeURIComponent] writes nothing but the unreserved
    characters and the [%] of its escapes, so no "/", "?", "#", "&" or
    space; a text of unreserved characters is left as it is. *)
Theorem encoded_text_is_one_segment (s : string) :
  Forall (fun x => unreserved x = true \/ x = "%"%char)
    (list_ascii_of_string (encodeURIComponent s))
  /\ count "/" (encodeURIComponent s) = 0%nat
  /\ count "?" (encodeURIComponent s) = 0%nat
  /\ count "#" (encodeURIComponent s) = 0%nat
  /\ count "&" (encodeURIComponent s) = 0%nat
  /\ count " " (encodeURIComponent s) = 0%nat
  /\ (Forall (fun x => unreserved x = true) (list_ascii_of_string s) ->
      encodeURIComponent s = s).
Proof.
  pose proof (encode_safe s) as H.
  split; [exact H|].
  do 5 (split; [apply count_safe; [reflexivity|discriminate|exact H]|]).
  apply encode_unreserved.
Qed.

Lemma encoded_text_is_one_segment_witness :
  Forall (fun x => unreserved x = true) (list_ascii_of_string "README.md")
  /\ encodeURIComponent "README.md" = "README.md".
Proof.
  assert (H : Forall (fun x => unreserved x = true) (list_ascii_of_string "README.md")).
  { repeat constructor. }
  split; [exact H|].
  exact (proj2 (proj2 (proj2 (proj2 (proj2 (proj2
           (encoded_text_is_one_segment "README.md")))))) H).
Defined.

(** *** Lone surrogates in the text of a value *)

Lemma loneSurrogate_cons c s :
  loneSurrogate (String c s)
  = match s with
    | String b _ =>
        ((N_of_ascii c =? 237) && (160 <=? N_of_ascii b) && (N_of_ascii b <=? 191))%N
        || loneSurrogate s
    | EmptyString => false
    end.
Proof. reflexivity. Qed.

(** Joining with a comma neither makes nor unmakes one. *)
Lemma loneSurrogate_comma a b :
  loneSurrogate (a ++ String "," b) = loneSurrogate a || loneSurrogate b.
Proof.
  induction a as [|c a IH].
  - change ("" ++ String "," b) with (String "," b). rewrite loneSurrogate_cons.
    destruct b; reflexivity.
  - change (String c a ++ String "," b) with (String c (a ++ String "," b)).
    rewrite !loneSurrogate_cons, IH. destruct a as [|d a].
    + change ("" ++ String "," b) with (String "," b). cbv iota.
      change (160 <=? N_of_ascii ",")%N with false.
      rewrite andb_false_r. reflexivity.
    + change (String d a ++ String "," b) with (String d (a ++ String "," b)). cbv iota.
      rewrite orb_assoc. reflexivity.
Qed.

(** A text without the byte ED holds none. *)
Lemma loneSurrogate_plain s :
  Forall (fun c => N_of_ascii c <> 237%N) (list_ascii_of_string s) ->
  loneSurrogate s = false.
Proof.
  induction s as [|c s IH]; intros H; [reflexivity|].
  simpl in H. inversion H as [|? ? Hc Hs]; subst.
  rewrite loneSurrogate_cons, (IH Hs). destruct s; [reflexivity|].
  apply N.eqb_neq in Hc. rewrite Hc. reflexivity.
Qed.

Lemma uintText_plain d :
  Forall (fun c => N_of_ascii c <> 237%N) (list_ascii_of_string (Json.uintText d)).
Proof. induction d; simpl; constructor; solve [discriminate | assumption]. Qed.

Lemma numberText_plain n : loneSurrogate (Json.numberText n) = false.
Proof.
  apply loneSurrogate_plain. unfold Json.numberText.
  destruct (Z.to_int n); simpl; [|constructor; [discriminate|]]; apply uintText_plain.
Qed.

(** [malformed] tells whether the text [String] writes holds a lone
    surrogate, whatever is written for the large integers, as long as it
    holds none. *)
Lemma malformed_text (exponential : Z -> string) v :
  (forall n, loneSurrogate (exponential n) = false) ->
  malformed v = loneSurrogate (stringOf exponential v).
Proof.
  intros Hexp.
  induction v as [| |b|n|s|items IH|props IH] using JsonFacts.Value_ind;
    try reflexivity.
  - destruct b; reflexivity.
  - simpl. destruct (Z.abs n <? _)%Z; [rewrite numberText_plain|rewrite Hexp]; reflexivity.
  - simpl. induction items as [|x items IHitems]; [reflexivity|].
    inversion IH as [|? ? Hx Hitems]; subst. specialize (IHitems Hitems).
    rewrite Hx, IHitems. clear IHitems IH Hitems Hx.
    assert (Helem : loneSurrogate (match x with
                                   | VUndefined | VNull => ""
                                   | _ => stringOf exponential x
                                   end) = loneSurrogate (stringOf exponential x)).
    { destruct x; reflexivity. }
    destruct items as [|y items].
    + rewrite JsonFacts.append_empty, orb_false_r. symmetry. exact Helem.
    + rewrite loneSurrogate_comma, Helem. reflexivity.
Qed.

(** X10: [encodeURIComponent] loses nothing: two different texts never
    have the same encoding. *)
Theorem encoding_is_injective (a b : string) :
  a <> b -> encodeURIComponent a <> encodeURIComponent b.
Proof.
  intros Hne H. apply Hne.
  pose proof (unescape_encode a) as Ha. rewrite H, unescape_encode in Ha.
  congruence.
Qed.

Lemma encoding_is_injective_witness :
  "a/b" <> "a%2Fb"
  /\ encodeURIComponent "a/b" = "a%2Fb"
  /\ encodeURIComponent "a%2Fb" = "a%252Fb"
  /\ encodeURIComponent "a/b" <> encodeURIComponent "a%2Fb".
Proof.
  assert (H : "a/b" <> "a%2Fb") by discriminate.
  split; [exact H|]. split; [reflexivity|]. split; [reflexivity|].
  exact (encoding_is_injective "a/b" "a%2Fb" H).
Defined.

(** Two values are another matter: the number 42 and the text "42" are
    written alike by [String], and give one path. *)
Example string_is_not_injective exponential :
  VNum 42 <> VStr "42"
  /\ urlText exponential (project (VNum 42)) = "/projects/42"
  /\ urlText exponential (project (VStr "42")) = "/projects/42".
Proof. split; [discriminate|]. split; reflexivity. Qed.

Lemma encoded_has_no_slash s : count "/" (encodeURIComponent s) = 0%nat.
Proof. apply count_safe; [reflexivity|discriminate|apply encode_safe]. Qed.

(** X11: for arguments that pass the guard and can be written into the
    path, the path get_repository_file asks for has five slashes, whatever
    the project id and the file path are: both travel encoded, each as one
    segment. *)
Theorem repository_file_path_shape (exponential : Z -> string) p axios log :
  accepts GetRepositoryFile p = true ->
  addressable GetRepositoryFile p = true ->
  exists call,
    snd (getRepositoryFile p axios log) = (log ++ [call])%list
    /\ templateThrows (url call) = None
    /\ urlText exponential (url call)
       = "/projects/"
         ++ encodeURIComponent (stringOf exponential (lookup "project_id" (args p)))
         ++ "/repository/files/"
         ++ encodeURIComponent (stringOf exponential (lookup "file_path" (args p)))
    /\ count "/" (urlText exponential (url call)) = 5%nat.
Proof.
  intros H Ha. unfold accepts in H. simpl in H.
  exists {| verb := HttpGet;
            url := (project (lookup "project_id" (args p))
                    ++ [Lit "/repository/files/"; Encoded (lookup "file_path" (args p))])%list;
            params := [("ref", or (lookup "ref" (args p)) (VStr "main"))];
            data := [] |}.
  match goal with
  | |- _ /\ _ /\ ?text = ?shape /\ _ => assert (Htext : text = shape)
  end.
  { simpl. rewrite JsonFacts.append_empty. reflexivity. }
  assert (Hwritten : templateThrows
                       (project (lookup "project_id" (args p))
                        ++ [Lit "/repository/files/"; Encoded (lookup "file_path" (args p))])%list
                     = None).
  { unfold addressable in Ha. apply andb_true_iff in Ha as [H1 H2].
    rewrite (ValidationFacts.project_written _ _ H1).
    unfold encodes in H2. apply andb_true_iff in H2 as [H2 H3].
    simpl. rewrite H2. simpl. apply negb_true_iff in H3. rewrite H3. reflexivity. }
  split; [|split; [exact Hwritten|split]].
  - unfold getRepositoryFile.
    revert H; ValidationFacts.tests_eqn; intros H; try discriminate H.
    unfold bind. rewrite ValidationFacts.request_runs by exact Hwritten.
    destruct (axios log _); reflexivity.
  - exact Htext.
  - rewrite Htext, !count_append, !encoded_has_no_slash. reflexivity.
Qed.

Lemma repository_file_path_shape_witness :
  accepts GetRepositoryFile nestedFile = true
  /\ addressable GetRepositoryFile nestedFile = true
  /\ exists call,
       snd (getRepositoryFile nestedFile noAxios []) = [call]
       /\ templateThrows (url call) = None
       /\ urlText noExponent (url call)
          = "/projects/group%2Fapp/repository/files/src%2Futils%2Fa%20b.ts"
       /\ count "/" (urlText noExponent (url call)) = 5%nat.
Proof.
  assert (H : accepts GetRepositoryFile nestedFile = true) by reflexivity.
  assert (H' : addressable GetRepositoryFile nestedFile = true) by reflexivity.
  split; [exact H|]. split; [exact H'|].
  exact (repository_file_path_shape noExponent nestedFile noAxios [] H H').
Defined.

End UriFacts.

(** ** Start-up choices *)

Module StartupFacts.

Import Startup.

Lemma orDefault_cases v fallback :
  (orDefault v fallback = fallback /\ (v = None \/ v = Some "" \/ v = Some fallback))
  \/ (v = Some (orDefault v fallback) /\ orDefault v fallback <> "").
Proof.
  destruct v as [s|]; simpl; [|left; auto].
  destruct (String.eqb s "") eqn:E.
  - apply String.eqb_eq in E. subst s. left. auto.
  - right. split; [reflexivity|]. apply String.eqb_neq, E.
Qed.

(** X21: the server exits, always with code 1, exactly when
    GITLAB_API_TOKEN is missing or empty or the start of the chosen
    transport fails.  The chosen transport is HTTP exactly when
    MCP_TRANSPORT is the text "http" (not "HTTP", not " http"), on what
    parseInt makes of MCP_HTTP_PORT, or of "3000" when that is missing or
    empty; otherwise it is stdio.  When the server serves, its client
    carries the token and the configured API URL, or
    https://gitlab.com/api/v4 when the URL is missing or empty. *)
Theorem startup_choices (Port : Type) (parseInt : string -> Port)
    (starts : Transport Port -> bool) (env : Env) :
  let chosen :=
    if String.eqb (orDefault (MCP_TRANSPORT env) "stdio") "http"
    then StreamableHttp (parseInt (orDefault (MCP_HTTP_PORT env) "3000"))
    else Stdio in
  (main Port parseInt starts env = Exit 1
   <-> GITLAB_API_TOKEN env = None \/ GITLAB_API_TOKEN env = Some ""
       \/ starts chosen = false)
  /\ (forall code, main Port parseInt starts env = Exit code -> code = 1)
  /\ (MCP_TRANSPORT env = Some "http" ->
      chosen = StreamableHttp (parseInt (orDefault (MCP_HTTP_PORT env) "3000")))
  /\ (MCP_TRANSPORT env <> Some "http" -> chosen = Stdio)
  /\ (forall client transport,
        main Port parseInt starts env = Serving client transport ->
        transport = chosen
        /\ starts transport = true
        /\ GITLAB_API_TOKEN env = Some (privateToken client)
        /\ privateToken client <> ""
        /\ baseURL client = orDefault (GITLAB_API_URL env) "https://gitlab.com/api/v4"
        /\ baseURL client <> "").
Proof.
  intros chosen. unfold main. fold chosen.
  split; [|split; [|split; [|split]]].
  - destruct (GITLAB_API_TOKEN env) as [token|]; [|split; auto].
    destruct (String.eqb token "") eqn:E.
    + apply String.eqb_eq in E. subst token. split; auto.
    + destruct (starts chosen) eqn:Es.
      * split; [discriminate|]. intros [H|[H|H]]; [discriminate| |discriminate].
        injection H as ->. discriminate E.
      * split; auto.
  - intros code H. destruct (GITLAB_API_TOKEN env) as [token|]; [|congruence].
    destruct (String.eqb token ""); [congruence|].
    destruct (starts chosen); [discriminate|congruence].
  - intros H. unfold chosen. rewrite H. reflexivity.
  - intros Hne. unfold chosen.
    destruct (MCP_TRANSPORT env) as [s|]; simpl; [|reflexivity].
    destruct (String.eqb s "") eqn:Es; [reflexivity|].
    destruct (String.eqb s "http") eqn:Eh; [|reflexivity].
    apply String.eqb_eq in Eh. subst s. contradiction.
  - intros client transport H.
    destruct (GITLAB_API_TOKEN env) as [token|]; [|discriminate].
    destruct (String.eqb token "") eqn:E; [discriminate|].
    destruct (starts chosen) eqn:Es; [|discriminate].
    injection H as <- <-. simpl.
    split; [reflexivity|]. split; [exact Es|]. split; [reflexivity|].
    split; [apply String.eqb_neq, E|]. split; [reflexivity|].
    destruct (orDefault_cases (GITLAB_API_URL env) "https://gitlab.com/api/v4")
      as [[-> _]|[_ Hne]]; [discriminate|exact Hne].
Qed.

Lemma startup_choices_witness :
  main string asRead refusesAbc shouting
  = Serving {| baseURL := "https://gitlab.com/api/v4"; privateToken := "glpat-x" |} Stdio
  /\ MCP_TRANSPORT shouting <> Some "http"
  /\ MCP_TRANSPORT badPort = Some "http"
  /\ refusesAbc (StreamableHttp (asRead (orDefault (MCP_HTTP_PORT badPort) "3000"))) = false
  /\ main string asRead refusesAbc badPort = Exit 1.
Proof.
  assert (H1 : main string asRead refusesAbc shouting
               = Serving {| baseURL := "https://gitlab.com/api/v4";
                            privateToken := "glpat-x" |} Stdio) by reflexivity.
  assert (H2 : MCP_TRANSPORT shouting <> Some "http") by discriminate.
  assert (H3 : refusesAbc (StreamableHttp (asRead (orDefault (MCP_HTTP_PORT badPort) "3000")))
               = false) by reflexivity.
  split; [exact H1|]. split; [exact H2|]. split; [reflexivity|]. split; [exact H3|].
  apply (proj1 (startup_choices string asRead refusesAbc badPort)).
  right. right. exact H3.
Defined.

End StartupFacts.

(** ** Sessions in use *)

Module TrafficFacts.

Import Js Http Traffic.

(** The route's answer is the answer of the exchange. *)
Lemma exchange_answer m h sdk callbacks st :
  fst (exchange Next m h sdk callbacks st) = ByRoute (fst (mcp m h sdk st)).
Proof.
  unfold exchange. destruct (mcp m h sdk st) as [out st1].
  destruct (awaited m h sdk st); reflexivity.
Qed.








Lemma withTransports_id (f : gmap string nat -> gmap string nat) st :
  f (transports st) = transports st -> withTransports f st = st.
Proof. intros H. destruct st. unfold withTransports. simpl in *. rewrite H. reflexivity. Qed.

Lemma getProp_delete_ne (tbl : gmap string nat) k k' :
  k' <> k -> getProp (delete k tbl) k' = getProp tbl k'.
Proof. intros H. unfold getProp. rewrite lookup_delete_ne by congruence. reflexivity. Qed.

(** X16: closing what is not there changes nothing: [onsessionclosed] on
    an identifier that is not live and [onclose] of a transport that holds
    no identifier, or one that is not live, return the state as it is; and
    closing one session leaves the answer to every request bearing another
    identifier what it was. *)
Theorem closing_is_local st :
  (forall id, transports st !! id = None -> onsessionclosed id st = st)
  /\ (forall t, sessionIdOf st !! t = None -> onclose t st = st)
  /\ (forall t id, sessionIdOf st !! t = Some id -> transports st !! id = None ->
      onclose t st = st)
  /\ (forall k k' m sdk, k' <> k ->
      fst (mcp m (Some k') sdk (onsessionclosed k st)) = fst (mcp m (Some k') sdk st)).
Proof.
  split; [|split; [|split]].
  - intros id H. apply withTransports_id, delete_id, H.
  - intros t H. unfold onclose. rewrite H. reflexivity.
  - intros t id H Hnone. unfold onclose. rewrite H.
    destruct (negb (String.eqb id "")); [|reflexivity].
    apply withTransports_id, delete_id, Hnone.
  - intros k k' m sdk Hne.
    destruct m; unfold mcp, post, getOrDelete, onsessionclosed, withTransports;
      cbn [transports constructed sessionIdOf gitlab keyOf fst snd];
      rewrite (getProp_delete_ne _ _ _ Hne);
      repeat match goal with
             | |- context [if ?b then _ else _] => destruct b; cbn [fst snd negb andb]
             | |- context [match getProp ?t ?x with _ => _ end] =>
                 destruct (getProp t x); cbn [fst snd negb andb]
             end;
      reflexivity.
Qed.

Lemma closing_is_local_witness :
  transports oneSession !! "eb3xr" = None
  /\ onsessionclosed "eb3xr" oneSession = oneSession.
Proof.
  assert (H : transports oneSession !! "eb3xr" = None) by reflexivity.
  split; [exact H|].
  exact (proj1 (closing_is_local oneSession) "eb3xr" H).
Defined.

(** X17: [onclose] of a transport deletes the entry under the identifier
    the transport holds without looking at who is registered there: when a
    later transport has taken the identifier over, the earlier one's close
    removes the later one's session. *)
Theorem close_removes_whoever_holds st t id :
  sessionIdOf st !! t = Some id ->
  id <> "" ->
  transports (onclose t st) !! id = None
  /\ forall k, k <> id -> transports (onclose t st) !! k = transports st !! k.
Proof.
  intros Hs Hne. unfold onclose. rewrite Hs, (HttpFacts.nonempty_eqb _ Hne). simpl.
  split; [apply lookup_delete_eq|]. intros k Hk. apply lookup_delete_ne. congruence.
Qed.

Lemma close_removes_whoever_holds_witness :
  sessionIdOf twoColliding !! 0%nat = Some "0be29"
  /\ "0be29" <> ""
  /\ transports twoColliding !! "0be29" = Some 1%nat
  /\ transports (onclose 0 twoColliding) !! "0be29" = None.
Proof.
  assert (H1 : sessionIdOf twoColliding !! 0%nat = Some "0be29") by reflexivity.
  assert (H2 : "0be29" <> "") by discriminate.
  split; [exact H1|]. split; [exact H2|]. split; [reflexivity|].
  exact (proj1 (close_removes_whoever_holds twoColliding 0%nat "0be29" H1 H2)).
Defined.

#[local] Set Warnings "-clear-no-such-hyp".

Lemma substringFrom_length n s :
  String.length (substringFrom n s) = (String.length s - n)%nat.
Proof.
  revert s. induction n as [|n IH]; intros s; simpl.
  - lia.
  - destruct s as [|c s]; simpl; [reflexivity|]. apply IH.
Qed.

Lemma length_zero (s : string) : String.length s = 0%nat <-> s = "".
Proof. destruct s; simpl; split; intros H; solve [reflexivity | discriminate H]. Qed.

(** X18: the identifier is what follows the first seven characters of
    the random text: it has seven characters fewer, and it is empty exactly
    when the text has seven characters or fewer (Math.random() having at
    most five base-36 digits, as 0.5, written "0.i").  A transport that
    draws the empty identifier is not registered: the table stays as it
    was. *)
Theorem short_random_text_gives_no_identifier (random36 : string) :
  String.length (sessionIdGenerator random36) = (String.length random36 - 7)%nat
  /\ (sessionIdGenerator random36 = "" <-> (String.length random36 <= 7)%nat)
  /\ ((String.length random36 <= 7)%nat ->
      forall t st,
        transports (initialize t (sessionIdGenerator random36) st) = transports st).
Proof.
  pose proof (substringFrom_length 7 random36) as Hlen.
  fold (sessionIdGenerator random36) in Hlen.
  split; [exact Hlen|]. split.
  - rewrite <- length_zero, Hlen. lia.
  - intros Hshort t st.
    assert (E : sessionIdGenerator random36 = "").
    { apply length_zero. rewrite Hlen. lia. }
    rewrite E. reflexivity.
Qed.

Lemma short_random_text_gives_no_identifier_witness :
  (String.length "0.i" <= 7)%nat
  /\ transports (initialize 1 (sessionIdGenerator "0.i") (snd (post None quiet oneSession)))
     = transports (snd (post None quiet oneSession)).
Proof.
  assert (H : (String.length "0.i" <= 7)%nat) by (simpl; lia).
  split; [exact H|].
  exact (proj2 (proj2 (short_random_text_gives_no_identifier "0.i")) H 1%nat
           (snd (post None quiet oneSession))).
Defined.

Section Bound.

Variable toolRegistry : gmap string Gitlab.ToolHandler.
Variable handleApiError : Gitlab.Thrown -> string -> Gitlab.Thrown.

Lemma fire_size e st st' :
  (size (transports st) <= size (sessionIdOf st))%nat ->
  fire toolRegistry handleApiError e st = Some st' ->
  (size (transports st') <= size (sessionIdOf st'))%nat.
Proof.
  intros Hle Hf. destruct e as [m h sdk| |t r|t|t|rq ax]; simpl in Hf.
  - injection Hf as <-.
    destruct (HttpFacts.mcp_keeps_table m h sdk st) as (Ht & Hs & _). rewrite Ht, Hs. exact Hle.
  - injection Hf as <-. exact Hle.
  - destruct (bool_decide (t < constructed st)%nat && isRandom36 r); [|discriminate].
    destruct (sessionIdOf st !! t) eqn:Hnone; [discriminate|]. injection Hf as <-.
    unfold initialize.
    destruct (negb (String.eqb (sessionIdGenerator r) "")); simpl;
      rewrite ?map_size_insert, ?Hnone.
    + destruct (transports st !! sessionIdGenerator r); simpl; lia.
    + lia.
  - destruct (sessionIdOf st !! t); [|discriminate]. injection Hf as <-. simpl.
    rewrite map_size_delete. destruct (transports st !! s); simpl; lia.
  - destruct (bool_decide _); [|discriminate]. injection Hf as <-.
    unfold onclose. destruct (sessionIdOf st !! t); [|exact Hle].
    destruct (negb _); [|exact Hle]. simpl.
    rewrite map_size_delete. destruct (transports st !! s); simpl; lia.
  - injection Hf as <-. exact Hle.
Qed.

Lemma reachable_size st :
  reachable toolRegistry handleApiError st ->
  (size (transports st) <= size (sessionIdOf st))%nat.
Proof.
  induction 1 as [|st e st' _ IH Hf]; [reflexivity|].
  eapply fire_size; eassumption.
Qed.

Lemma reachable_bounded st :
  reachable toolRegistry handleApiError st ->
  (size (transports st) <= constructed st)%nat.
Proof.
  intros Hr. destruct (HttpFacts.reachable_consistent _ _ st Hr) as [_ Hb].
  apply Nat.le_trans with (m := size (sessionIdOf st)); [apply reachable_size, Hr|].
  rewrite <- size_dom.
  rewrite <- (size_set_seq (C := gset nat) 0 (constructed st)).
  apply subseteq_size. intros t Ht. apply elem_of_dom in Ht as [id Hid].
  apply elem_of_set_seq. destruct (Hb t id Hid) as [Hlt _]. lia.
Qed.

(** X19: in every reachable state each live identifier is non-empty,
    made of base-36 digits, and registered to a transport that has been
    constructed and holds that identifier in its sessionId field; and the
    sessions alive are never more than the transports constructed. *)
Theorem reachable_sessions_are_sound st :
  reachable toolRegistry handleApiError st ->
  (forall k t, transports st !! k = Some t ->
     k <> "" /\ allBase36 k = true /\ sessionIdOf st !! t = Some k
     /\ (t < constructed st)%nat)
  /\ (size (transports st) <= constructed st)%nat.
Proof.
  intros Hr. destruct (HttpFacts.reachable_consistent _ _ st Hr) as [Ha Hb]. split.
  - intros k t Hk. destruct (Ha k t Hk) as [Hs Hne]. destruct (Hb t k Hs) as [Hlt H36].
    repeat split; assumption.
  - apply reachable_bounded, Hr.
Qed.



End Bound.

Lemma reachable_sessions_are_sound_witness :
  reachable noTools identityFormatter twoColliding
  /\ (size (transports twoColliding) <= constructed twoColliding)%nat.
Proof.
  assert (H : reachable noTools identityFormatter twoColliding).
  { apply (reachable_fire _ _ (snd (post None quiet oneSession))
             (Initialized 1 "0.o2fui0be29")).
    - apply (reachable_fire _ _ oneSession (Request POST None quiet)).
      + apply HttpFacts.oneSession_reachable.
      + reflexivity.
    - reflexivity. }
  split; [exact H|].
  exact (proj2 (reachable_sessions_are_sound noTools identityFormatter twoColliding H)).
Defined.



Lemma route_answers m h sdk st :
  (fst (mcp m h sdk st) = Json 400 invalidSession
   \/ fst (mcp m h sdk st) = caught m
   \/ exists t,
        fst (mcp m h sdk st) = Handled t
        /\ handleThrows sdk = false
        /\ (transports st !! keyOf h = Some t
            \/ (m = POST /\ t = constructed st /\ connectThrows sdk = false)))
  /\ (handleThrows sdk = true -> forall t, fst (mcp m h sdk st) <> Handled t).
Proof.
  assert (Hslot : forall k,
             match getProp (transports st) k with
             | Own t => transports st !! k = Some t
             | _ => True
             end).
  { intros k. unfold getProp. destruct (transports st !! k); [reflexivity|].
    destruct (inherited k); exact I. }
  destruct m; simpl.
  - unfold post. destruct h as [s|]; simpl.
    + destruct (String.eqb s "") eqn:E; simpl.
      * destruct (connectThrows sdk) eqn:Ec, (handleThrows sdk) eqn:Eh; simpl;
          (split; [|intros; discriminate]); eauto 10.
      * pose proof (Hslot s) as Hs. destruct (getProp (transports st) s); simpl.
        -- destruct (handleThrows sdk) eqn:Eh; simpl;
             (split; [|intros; discriminate]); eauto 10.
        -- split; [auto|intros; discriminate].
        -- split; [auto|intros; discriminate].
    + destruct (connectThrows sdk) eqn:Ec, (handleThrows sdk) eqn:Eh; simpl;
        (split; [|intros; discriminate]); eauto 10.
  - unfold getOrDelete. pose proof (Hslot (keyOf h)) as Hs.
    destruct (getProp (transports st) (keyOf h)); simpl.
    + destruct (handleThrows sdk) eqn:Eh; simpl;
        (split; [|intros; discriminate]); eauto 10.
    + split; [auto|intros; discriminate].
    + split; [auto|intros; discriminate].
  - unfold getOrDelete. pose proof (Hslot (keyOf h)) as Hs.
    destruct (getProp (transports st) (keyOf h)); simpl.
    + destruct (handleThrows sdk) eqn:Eh; simpl;
        (split; [|intros; discriminate]); eauto 10.
    + split; [auto|intros; discriminate].
    + split; [auto|intros; discriminate].
Qed.

(** X20: every request on /mcp gets one of four answers: the error page
    of the body parser, when it refuses the body, and then nothing
    changes; 400 "Invalid session"; the 500 of the route's catch; or the
    answer of a transport, which is then either the one registered under
    the key the route read or, on POST, the one the route has just
    constructed and connected.  When the transport library throws, the
    answer is never the transport's. *)
Theorem every_request_is_answered parser m h sdk callbacks st :
  ((exists status,
      parser = Refuse status
      /\ exchange parser m h sdk callbacks st = (ByParser status, st))
   \/ (parser = Next
       /\ (fst (exchange parser m h sdk callbacks st) = ByRoute (Json 400 invalidSession)
           \/ fst (exchange parser m h sdk callbacks st) = ByRoute (caught m)
           \/ exists t,
                fst (exchange parser m h sdk callbacks st) = ByRoute (Handled t)
                /\ handleThrows sdk = false
                /\ (transports st !! keyOf h = Some t
                    \/ (m = POST /\ t = constructed st /\ connectThrows sdk = false)))))
  /\ (handleThrows sdk = true ->
      forall t, fst (exchange parser m h sdk callbacks st) <> ByRoute (Handled t)).
Proof.
  destruct parser as [|status].
  - rewrite exchange_answer. destruct (route_answers m h sdk st) as [Hkind Hthrows]. split.
    + right. split; [reflexivity|].
      destruct Hkind as [H|[H|(t & H & Hrest)]].
      * left. rewrite H. reflexivity.
      * right. left. rewrite H. reflexivity.
      * right. right. exists t. rewrite H. split; [reflexivity|exact Hrest].
    + intros Hsdk t H. injection H as H. exact (Hthrows Hsdk t H).
  - split.
    + left. exists status. split; reflexivity.
    + intros _ t. discriminate.
Qed.

Lemma every_request_is_answered_witness :
  handleThrows {| connectThrows := false; handleThrows := true |} = true
  /\ forall t,
       fst (exchange Next GET (Some "0be29")
              {| connectThrows := false; handleThrows := true |} [Close] oneSession)
       <> ByRoute (Handled t).
Proof.
  split; [reflexivity|].
  exact (proj2 (every_request_is_answered Next GET (Some "0be29")
                  {| connectThrows := false; handleThrows := true |} [Close] oneSession)
           eq_refl).
Defined.

End TrafficFacts.

